(** * condor-hunter: iron condor screening and backtesting

    A shallow embedding of the candidate generator
    ([condor_screener/builders/condor_builder.py]), the backtest simulator
    ([condor_screener/backtest/simulator.py]), the performance aggregator
    ([condor_screener/backtest/metrics.py]) and the earnings-edge analyzer
    ([condor_screener/backtest/earnings_analyzer.py]), with the data model
    they share ([condor_screener/models]).

    Conventions of the embedding.
    - A Python [float] is an exact rational of [Q]; rounding, NaN and the
      infinities are outside the model.  Numeric results are compared with
      [==] ([Qeq]).
    - A [datetime.date] is its day ordinal in [Z]; the difference of two
      dates in days is the difference of the ordinals.
    - A Python exception is the [Raise] case of [result]; [/] is the checked
      division [pydiv], which raises [ZeroDivisionError] on a zero divisor.
    - [date.today()], [date.fromisoformat] and [math.sqrt] come from the
      environment and the standard library: they are Section variables. *)

From Stdlib Require Import ZArith QArith Qminmax Qabs Lqa Lia.
From Stdlib Require Import List String Bool Permutation Sorted.
Import ListNotations.

Open Scope Q_scope.

(* ================================================================== *)
(** * Python values, exceptions and arithmetic *)

Inductive PyError : Type :=
| ValueError (msg : string)
| ZeroDivisionError.

Inductive result (A : Type) : Type :=
| Ok (a : A)
| Raise (e : PyError).

Arguments Ok {A} a.
Arguments Raise {A} e.

Definition bind {A B : Type} (c : result A) (k : A -> result B) : result B :=
  match c with
  | Ok a => k a
  | Raise e => Raise e
  end.

Notation "x <- c ;; k" := (bind c (fun x => k))
  (at level 61, c at next level, right associativity).

(** [a / b] on numbers: true division, [ZeroDivisionError] when [b] is 0. *)
Definition pydiv (a b : Q) : result Q :=
  if Qeq_bool b 0 then Raise ZeroDivisionError else Ok (a / b).

Definition Qltb (x y : Q) : bool := negb (Qle_bool y x).

Infix "<=?" := Qle_bool (at level 70, no associativity) : Q_scope.
Infix "<?" := Qltb (at level 70, no associativity) : Q_scope.
Infix "=?" := Qeq_bool (at level 70, no associativity) : Q_scope.

(** [sum(xs)]: left fold from the integer 0. *)
Definition pysum (xs : list Q) : Q := fold_left Qplus xs 0.

(** [len(xs)] as a number. *)
Definition pylen {A : Type} (xs : list A) : Z := Z.of_nat (List.length xs).

(** [max(xs)] and [min(xs)] of a non-empty list: the first extremal element. *)
Definition pymax_list (x : Q) (xs : list Q) : Q := fold_left Qmax xs x.
Definition pymin_list (x : Q) (xs : list Q) : Q := fold_left Qmin xs x.

(* ================================================================== *)
(** * models/option.py *)

Inductive OptionType : Type := call | put.

Definition OptionType_eqb (a b : OptionType) : bool :=
  match a, b with
  | call, call | put, put => true
  | _, _ => false
  end.

Module Option.

Record t : Type := mk {
  ticker : string;
  strike : Q;
  expiration : Z;
  option_type : OptionType;
  bid : Q;
  ask : Q;
  volume : Z;
  open_interest : Z;
  delta : Q;
  implied_vol : Q;
  last : option Q;
  gamma : option Q;
  theta : option Q;
  vega : option Q
}.

(** [mid]: [(bid + ask) / 2.0]. *)
Definition mid (o : t) : Q := (bid o + ask o) / 2.

(** [dte]: [(expiration - date.today()).days]. *)
Definition dte (today : Z) (o : t) : Z := (expiration o - today)%Z.

(** [bid_ask_spread_pct]: [(ask - bid) / mid], or [float('inf')], here
    [None], when the mid price is not positive. *)
Definition bid_ask_spread_pct (o : t) : result (option Q) :=
  if mid o <=? 0 then Ok None
  else q <- pydiv (ask o - bid o) (mid o) ;; Ok (Some q).

End Option.

(* ================================================================== *)
(** * models/iron_condor.py *)

Module IronCondor.

Record t : Type := mk {
  ticker : string;
  expiration : Z;
  short_put : Option.t;
  long_put : Option.t;
  short_call : Option.t;
  long_call : Option.t
}.

Definition legs (ic : t) : list Option.t :=
  [short_put ic; long_put ic; short_call ic; long_call ic].

(** [__post_init__]: the structural checks run by the constructor. *)
Definition post_init (ic : t) : result unit :=
  if negb (forallb (fun leg => String.eqb (Option.ticker leg) (ticker ic)) (legs ic))
  then Raise (ValueError "All legs must have same ticker")
  else if negb (forallb (fun leg => Z.eqb (Option.expiration leg) (expiration ic)) (legs ic))
  then Raise (ValueError "All legs must have same expiration")
  else if negb (OptionType_eqb (Option.option_type (short_put ic)) put)
          || negb (OptionType_eqb (Option.option_type (long_put ic)) put)
  then Raise (ValueError "Put side must contain put options")
  else if Option.strike (short_put ic) <=? Option.strike (long_put ic)
  then Raise (ValueError "Short put strike must be above long put strike")
  else if negb (OptionType_eqb (Option.option_type (short_call ic)) call)
          || negb (OptionType_eqb (Option.option_type (long_call ic)) call)
  then Raise (ValueError "Call side must contain call options")
  else if Option.strike (long_call ic) <=? Option.strike (short_call ic)
  then Raise (ValueError "Short call strike must be below long call strike")
  else if Option.strike (short_call ic) <=? Option.strike (short_put ic)
  then Raise (ValueError "Short call strike must be above short put strike")
  else Ok tt.

(** The constructor [IronCondor(...)]: the record, or the [ValueError]. *)
Definition new (tk : string) (exp : Z) (sp lp sc lc : Option.t) : result t :=
  let ic := mk tk exp sp lp sc lc in
  _ <- post_init ic ;; Ok ic.

Definition net_credit (ic : t) : Q :=
  let put_spread_credit := Option.mid (short_put ic) - Option.mid (long_put ic) in
  let call_spread_credit := Option.mid (short_call ic) - Option.mid (long_call ic) in
  put_spread_credit + call_spread_credit.

Definition max_profit (ic : t) : Q := net_credit ic.

Definition put_side_width (ic : t) : Q :=
  Option.strike (short_put ic) - Option.strike (long_put ic).

Definition call_side_width (ic : t) : Q :=
  Option.strike (long_call ic) - Option.strike (short_call ic).

Definition max_loss_put_side (ic : t) : Q := put_side_width ic - net_credit ic.

Definition max_loss_call_side (ic : t) : Q := call_side_width ic - net_credit ic.

Definition max_loss (ic : t) : Q :=
  Qmax (max_loss_put_side ic) (max_loss_call_side ic).

(** A validated Spread: an [IronCondor] the constructor accepts. *)
Definition validated (ic : t) : Prop := post_init ic = Ok tt.

(** [return_on_risk]: [(max_profit / max_loss) * 100], 0.0 when the maximum
    loss is not positive. *)
Definition return_on_risk (ic : t) : result Q :=
  if max_loss ic <=? 0 then Ok 0.0
  else q <- pydiv (max_profit ic) (max_loss ic) ;; Ok (q * 100).

Definition put_side_breakeven (ic : t) : Q :=
  Option.strike (short_put ic) - net_credit ic.

Definition call_side_breakeven (ic : t) : Q :=
  Option.strike (short_call ic) + net_credit ic.

Definition is_symmetric (ic : t) : bool :=
  Qabs (put_side_width ic - call_side_width ic) <? 0.01.

End IronCondor.

(* ================================================================== *)
(** * backtest/simulator.py *)

Record ExitRule : Type := mkExitRule {
  profit_target_pct : Q;
  stop_loss_pct : Q;
  min_dte_to_close : Z;
  close_before_earnings_days : Z
}.

(** [ExitRule()] with its defaults. *)
Definition default_ExitRule : ExitRule := mkExitRule 0.50 1.0 21 3.

(** The five values [exit_reason] takes. *)
Inductive ExitReason : Type :=
| profit_target
| stop_loss
| min_dte
| earnings
| expiration.

Definition ExitReason_str (r : ExitReason) : string :=
  match r with
  | profit_target => "profit_target"
  | stop_loss => "stop_loss"
  | min_dte => "min_dte"
  | earnings => "earnings"
  | expiration => "expiration"
  end.

Record BacktestResult : Type := mkBacktestResult {
  iron_condor : IronCondor.t;
  entry_date : Z;
  exit_date : Z;
  exit_reason : ExitReason;
  entry_credit : Q;
  exit_cost : Q;
  realized_pnl : Q;
  max_profit : Q;
  max_loss : Q;
  return_pct : Q;
  days_held : Z;
  is_winner : bool;
  had_earnings : bool
}.

(** Truth value of an [Optional[str]]: [None] and the empty string are false. *)
Definition truthy (s : option string) : bool :=
  match s with
  | None => false
  | Some s => negb (String.eqb s EmptyString)
  end.

(** [price_path[-1][1] if price_path else 0.0]. *)
Definition final_price_of (price_path : list (Z * Q)) : Q :=
  match price_path with
  | [] => 0.0
  | s :: rest => snd (List.last rest s)
  end.

Section Simulator.

(** [date.today()], read by [Option.dte]. *)
Variable today : Z.

(** [date.fromisoformat]: [None] stands for its [ValueError]. *)
Variable fromisoformat : string -> option Z.

Definition _estimate_exit_cost (ic : IronCondor.t) (price : Q) (dte : Z)
    (pct_of_max : Q) : Q :=
  IronCondor.max_profit ic * pct_of_max.

Definition _estimate_position_value (ic : IronCondor.t) (price : Q) (dte : Z)
    : result Q :=
  let short_put := Option.strike (IronCondor.short_put ic) in
  let short_call := Option.strike (IronCondor.short_call ic) in
  let long_put := Option.strike (IronCondor.long_put ic) in
  let long_call := Option.strike (IronCondor.long_call ic) in
  let max_profit := IronCondor.max_profit ic in
  let max_loss := IronCondor.max_loss ic in
  let initial_dte := Option.dte today (IronCondor.short_put ic) in
  if (short_put <? price) && (price <? short_call) then
    time_factor <- pydiv (inject_Z dte) (inject_Z (Z.max initial_dte 1)) ;;
    Ok (max_profit * time_factor * 0.3)
  else if price <=? short_put then
    let intrinsic := Qmax 0 (short_put - price) in
    let intrinsic_long := Qmax 0 (long_put - price) in
    let spread_value := intrinsic - intrinsic_long in
    Ok (Qmin (spread_value * 100) max_loss)
  else if short_call <=? price then
    let intrinsic := Qmax 0 (price - short_call) in
    let intrinsic_long := Qmax 0 (price - long_call) in
    let spread_value := intrinsic - intrinsic_long in
    Ok (Qmin (spread_value * 100) max_loss)
  else Ok (max_profit * 0.5).

Definition _calculate_expiration_value (ic : IronCondor.t) (final_price : Q) : Q :=
  let short_put := Option.strike (IronCondor.short_put ic) in
  let short_call := Option.strike (IronCondor.short_call ic) in
  let long_put := Option.strike (IronCondor.long_put ic) in
  let long_call := Option.strike (IronCondor.long_call ic) in
  if (short_put <? final_price) && (final_price <? short_call) then 0.0
  else if final_price <=? short_put then
    let short_value := Qmax 0 (short_put - final_price) in
    let long_value := Qmax 0 (long_put - final_price) in
    (short_value - long_value) * 100
  else if short_call <=? final_price then
    let short_value := Qmax 0 (final_price - short_call) in
    let long_value := Qmax 0 (final_price - long_call) in
    (short_value - long_value) * 100
  else 0.0.

(** The state the loop of [simulate_iron_condor] assigns: [exit_date],
    [exit_reason], [exit_cost]. *)
Definition ExitState : Type := (Z * ExitReason * Q)%type.

Section Loop.

Variable ic : IronCondor.t.
Variable entry : Z.
Variable exit_rule : ExitRule.
Variable earnings_date : option string.

(** Rule 1 (lines 119-129): the test of the earnings exit on date [dt]. *)
Definition earnings_rule (dt : Z) : bool :=
  truthy earnings_date && (0 <? close_before_earnings_days exit_rule)%Z &&
  match earnings_date with
  | Some s =>
      match fromisoformat s with
      | Some earnings_dt =>
          let days_to_earnings := (earnings_dt - dt)%Z in
          (0 <=? days_to_earnings)%Z &&
          (days_to_earnings <=? close_before_earnings_days exit_rule)%Z
      | None => false
      end
  | None => false
  end.

(** The body of the loop for one sample in range (lines 115-154): the
    exit state when a rule fires ([break]), [None] to go on. *)
Definition exit_rules (dt : Z) (price : Q) : result (option ExitState) :=
  let expiration := IronCondor.expiration ic in
  let entry_credit := IronCondor.net_credit ic in
  let max_profit := IronCondor.max_profit ic in
  let max_loss := IronCondor.max_loss ic in
  let days_to_exp := (expiration - dt)%Z in
  if earnings_rule dt then
    Ok (Some (dt, earnings, _estimate_exit_cost ic price days_to_exp 0.30))
  else if (days_to_exp <=? min_dte_to_close exit_rule)%Z then
    Ok (Some (dt, min_dte, _estimate_exit_cost ic price days_to_exp 0.25))
  else
    current_value <- _estimate_position_value ic price days_to_exp ;;
    let current_pnl := entry_credit - current_value in
    if max_profit * profit_target_pct exit_rule <=? current_pnl then
      Ok (Some (dt, profit_target, current_value))
    else if current_pnl <=? - max_loss * stop_loss_pct exit_rule then
      Ok (Some (dt, stop_loss, current_value))
    else Ok None.

(** The [for dt, price in price_path] loop (lines 105-154). *)
Fixpoint walk (price_path : list (Z * Q)) : result ExitState :=
  match price_path with
  | [] => Ok (IronCondor.expiration ic, expiration, 0.0)
  | (dt, price) :: rest =>
      if (dt <? entry)%Z then walk rest
      else if (IronCondor.expiration ic <? dt)%Z then
        Ok (IronCondor.expiration ic, expiration, 0.0)
      else
        fired <- exit_rules dt price ;;
        match fired with
        | Some st => Ok st
        | None => walk rest
        end
  end.

End Loop.

Definition simulate_iron_condor (ic : IronCondor.t) (entry : Z)
    (exit_rule : ExitRule) (price_path : list (Z * Q))
    (earnings_date : option string) : result BacktestResult :=
  let expiration_ := IronCondor.expiration ic in
  let entry_credit := IronCondor.net_credit ic in
  let max_profit := IronCondor.max_profit ic in
  let max_loss := IronCondor.max_loss ic in
  let had_earnings :=
    truthy earnings_date &&
    match earnings_date with
    | Some s =>
        match fromisoformat s with
        | Some earnings_dt =>
            (entry <=? earnings_dt)%Z && (earnings_dt <=? expiration_)%Z
        | None => false
        end
    | None => false
    end in
  st <- walk ic entry exit_rule earnings_date price_path ;;
  let '(exit_date, exit_reason, exit_cost) := st in
  let exit_cost :=
    match exit_reason with
    | expiration => _calculate_expiration_value ic (final_price_of price_path)
    | _ => exit_cost
    end in
  let realized_pnl := entry_credit - exit_cost in
  return_pct <-
    (if 0 <? max_loss
     then q <- pydiv realized_pnl max_loss ;; Ok (q * 100)
     else Ok 0.0) ;;
  let days_held := (exit_date - entry)%Z in
  let is_winner := 0 <? realized_pnl in
  Ok (mkBacktestResult ic entry exit_date exit_reason entry_credit exit_cost
        realized_pnl max_profit max_loss return_pct days_held is_winner
        had_earnings).

End Simulator.

(* ================================================================== *)
(** * builders/condor_builder.py *)

Module StrategyConfig.

Record t : Type := mk {
  min_dte : Z;
  max_dte : Z;
  min_delta : Q;
  max_delta : Q;
  wing_width_put : Q;
  wing_width_call : Q;
  allow_asymmetric : bool
}.

(** [StrategyConfig()] with its defaults. *)
Definition default : t := mk 30 45 0.15 0.25 5.0 5.0 true.

End StrategyConfig.

(** A [dict] keyed by strike, in insertion order.  Assigning to a key that
    is present replaces the value and keeps the key's position. *)
Definition StrikeDict : Type := list (Q * Option.t).

Fixpoint dict_set (d : StrikeDict) (k : Q) (v : Option.t) : StrikeDict :=
  match d with
  | [] => [(k, v)]
  | (k', v') :: rest =>
      if k' =? k then (k', v) :: rest else (k', v') :: dict_set rest k v
  end.

(** [d[k]] guarded by [k in d]. *)
Fixpoint dict_get (d : StrikeDict) (k : Q) : option Option.t :=
  match d with
  | [] => None
  | (k', v) :: rest => if k' =? k then Some v else dict_get rest k
  end.

(** The comprehension [{opt.strike: opt for opt in opts}]. *)
Definition by_strike (opts : list Option.t) : StrikeDict :=
  fold_left (fun d opt => dict_set d (Option.strike opt) opt) opts [].

Definition is_empty {A : Type} (xs : list A) : bool :=
  match xs with
  | [] => true
  | _ :: _ => false
  end.

Definition _find_strike (strikes_dict : StrikeDict) (target_strike tolerance : Q)
    : option Option.t :=
  match dict_get strikes_dict target_strike with
  | Some opt => Some opt
  | None =>
      match
        find (fun item => Qabs (fst item - target_strike) <=? tolerance) strikes_dict
      with
      | Some (_, opt) => Some opt
      | None => None
      end
  end.

Definition _is_valid_condor (ic : IronCondor.t) : bool :=
  if IronCondor.net_credit ic <=? 0 then false
  else if IronCondor.max_loss ic <=? 0 then false
  else if (IronCondor.put_side_width ic <=? IronCondor.max_profit ic)
          || (IronCondor.call_side_width ic <=? IronCondor.max_profit ic)
  then false
  else true.

(** [by_exp[opt.expiration].append(opt)] on a [defaultdict(list)]. *)
Fixpoint group_add (by_exp : list (Z * list Option.t)) (opt : Option.t)
    : list (Z * list Option.t) :=
  match by_exp with
  | [] => [(Option.expiration opt, [opt])]
  | (k, v) :: rest =>
      if (k =? Option.expiration opt)%Z then (k, v ++ [opt]) :: rest
      else (k, v) :: group_add rest opt
  end.

Definition _group_by_expiration (options : list Option.t)
    : list (Z * list Option.t) :=
  fold_left group_add options [].

(** The generator, as the list of the condors it yields, in order.  The
    constructor's [ValueError] is caught: the combination is dropped. *)
Definition _generate_condors_for_expiration (options : list Option.t)
    (expiration : Z) (config : StrategyConfig.t) : list IronCondor.t :=
  let puts := filter (fun opt => OptionType_eqb (Option.option_type opt) put) options in
  let calls := filter (fun opt => OptionType_eqb (Option.option_type opt) call) options in
  if is_empty puts || is_empty calls then []
  else
    let puts_by_strike := by_strike puts in
    let calls_by_strike := by_strike calls in
    let short_puts :=
      filter (fun p => (- StrategyConfig.max_delta config <=? Option.delta p)
                       && (Option.delta p <=? - StrategyConfig.min_delta config)) puts in
    let short_calls :=
      filter (fun c => (StrategyConfig.min_delta config <=? Option.delta c)
                       && (Option.delta c <=? StrategyConfig.max_delta config)) calls in
    flat_map (fun short_put =>
      let long_put_strike :=
        Option.strike short_put - StrategyConfig.wing_width_put config in
      match _find_strike puts_by_strike long_put_strike 0.5 with
      | None => []
      | Some long_put =>
          flat_map (fun short_call =>
            let long_call_strike :=
              Option.strike short_call + StrategyConfig.wing_width_call config in
            match _find_strike calls_by_strike long_call_strike 0.5 with
            | None => []
            | Some long_call =>
                match
                  IronCondor.new (Option.ticker short_put) expiration
                    short_put long_put short_call long_call
                with
                | Ok ic => if _is_valid_condor ic then [ic] else []
                | Raise _ => []
                end
            end) short_calls
      end) short_puts.

Definition generate_iron_condors (today : Z) (options : list Option.t)
    (config : StrategyConfig.t) : list IronCondor.t :=
  let valid_options :=
    filter (fun opt => (StrategyConfig.min_dte config <=? Option.dte today opt)%Z
                       && (Option.dte today opt <=? StrategyConfig.max_dte config)%Z)
      options in
  if is_empty valid_options then []
  else
    let by_expiration := _group_by_expiration valid_options in
    flat_map (fun item =>
                _generate_condors_for_expiration (snd item) (fst item) config)
      by_expiration.

(* ================================================================== *)
(** * backtest/metrics.py *)

Record PerformanceMetrics : Type := mkPerformanceMetrics {
  total_trades : Z;
  winners : Z;
  losers : Z;
  win_rate : Q;
  avg_return_pct : Q;
  avg_winner_pct : Q;
  avg_loser_pct : Q;
  total_pnl : Q;
  max_drawdown_pct : Q;
  sharpe_ratio : Q;
  sortino_ratio : Q;
  profit_factor : Q;
  avg_days_held : Q;
  best_trade_pct : Q;
  worst_trade_pct : Q
}.

(** [sorted(results, key=lambda r: r.exit_date)]: a stable sort. *)
Fixpoint insert_by_exit_date (r : BacktestResult) (sorted : list BacktestResult)
    : list BacktestResult :=
  match sorted with
  | [] => [r]
  | x :: rest =>
      if (exit_date r <? exit_date x)%Z then r :: x :: rest
      else x :: insert_by_exit_date r rest
  end.

Definition sorted_by_exit_date (results : list BacktestResult) : list BacktestResult :=
  fold_left (fun acc r => insert_by_exit_date r acc) results [].

(** The loop of [_calculate_max_drawdown] over the sorted results. *)
Fixpoint drawdown_walk (results : list BacktestResult)
    (cumulative_pnl peak max_dd : Q) : result Q :=
  match results with
  | [] => Ok max_dd
  | r :: rest =>
      let cumulative_pnl := cumulative_pnl + realized_pnl r in
      let peak := if peak <? cumulative_pnl then cumulative_pnl else peak in
      if 0 <? peak then
        q <- pydiv (peak - cumulative_pnl) peak ;;
        let drawdown := q * 100 in
        drawdown_walk rest cumulative_pnl peak (Qmax max_dd drawdown)
      else drawdown_walk rest cumulative_pnl peak max_dd
  end.

Definition _calculate_max_drawdown (results : list BacktestResult) : result Q :=
  if is_empty results then Ok 0.0
  else drawdown_walk (sorted_by_exit_date results) 0.0 0.0 0.0.

(** The expression [sum(xs) / len(xs) if xs else 0.0]. *)
Definition mean_or_zero (xs : list Q) : result Q :=
  if is_empty xs then Ok 0.0 else pydiv (pysum xs) (inject_Z (pylen xs)).

(** [max(xs) if xs else 0.0] and [min(xs) if xs else 0.0]. *)
Definition max_or_zero (xs : list Q) : Q :=
  match xs with
  | [] => 0.0
  | x :: rest => pymax_list x rest
  end.

Definition min_or_zero (xs : list Q) : Q :=
  match xs with
  | [] => 0.0
  | x :: rest => pymin_list x rest
  end.

Section Metrics.

(** [math.sqrt], only ever applied to non-negative arguments. *)
Variable sqrt : Q -> Q.

Definition _calculate_sharpe_ratio (returns : list Q) (risk_free_rate : Q)
    : result Q :=
  if is_empty returns || (pylen returns <? 2)%Z then Ok 0.0
  else
    avg_return <- pydiv (pysum returns) (inject_Z (pylen returns)) ;;
    variance <-
      pydiv (pysum (map (fun r => (r - avg_return) ^ 2) returns))
            (inject_Z (pylen returns - 1)) ;;
    let std_dev := sqrt variance in
    if std_dev =? 0 then Ok 0.0
    else
      let trades_per_year := 10 in
      let annualization_factor := sqrt trades_per_year in
      q <- pydiv (avg_return - risk_free_rate) std_dev ;;
      Ok (q * annualization_factor).

Definition _calculate_sortino_ratio (returns : list Q) (risk_free_rate : Q)
    : result Q :=
  if is_empty returns || (pylen returns <? 2)%Z then Ok 0.0
  else
    avg_return <- pydiv (pysum returns) (inject_Z (pylen returns)) ;;
    let downside_returns := filter (fun r => r <? 0) returns in
    if is_empty downside_returns then Ok 10.0
    else
      downside_variance <-
        pydiv (pysum (map (fun r => (r - 0) ^ 2) downside_returns))
              (inject_Z (pylen downside_returns)) ;;
      let downside_std := sqrt downside_variance in
      if downside_std =? 0 then Ok 10.0
      else
        let trades_per_year := 10 in
        let annualization_factor := sqrt trades_per_year in
        q <- pydiv (avg_return - risk_free_rate) downside_std ;;
        Ok (q * annualization_factor).

Definition calculate_metrics (results : list BacktestResult)
    : result PerformanceMetrics :=
  if is_empty results then
    Ok (mkPerformanceMetrics 0 0 0 0.0 0.0 0.0 0.0 0.0 0.0 0.0 0.0 0.0 0.0 0.0 0.0)
  else
    let total_trades := pylen results in
    let winners := pylen (filter is_winner results) in
    let losers := (total_trades - winners)%Z in
    win_rate <-
      (if (0 <? total_trades)%Z
       then q <- pydiv (inject_Z winners) (inject_Z total_trades) ;; Ok (q * 100)
       else Ok 0.0) ;;
    let returns := map return_pct results in
    avg_return_pct <- mean_or_zero returns ;;
    let winner_returns := map return_pct (filter is_winner results) in
    avg_winner_pct <- mean_or_zero winner_returns ;;
    let loser_returns :=
      map return_pct (filter (fun r => negb (is_winner r)) results) in
    avg_loser_pct <- mean_or_zero loser_returns ;;
    let total_pnl := pysum (map realized_pnl results) in
    let best_trade_pct := max_or_zero returns in
    let worst_trade_pct := min_or_zero returns in
    let gross_profit := pysum (map realized_pnl (filter is_winner results)) in
    let gross_loss :=
      Qabs (pysum (map realized_pnl
                     (filter (fun r => negb (is_winner r)) results))) in
    profit_factor <-
      (if 0 <? gross_loss then pydiv gross_profit gross_loss else Ok 0.0) ;;
    max_drawdown_pct <- _calculate_max_drawdown results ;;
    sharpe_ratio <- _calculate_sharpe_ratio returns 0.0 ;;
    sortino_ratio <- _calculate_sortino_ratio returns 0.0 ;;
    avg_days_held <-
      (if is_empty results then Ok 0.0
       else pydiv (inject_Z (fold_left Z.add (map days_held results) 0%Z))
                  (inject_Z (pylen results))) ;;
    Ok (mkPerformanceMetrics total_trades winners losers win_rate
          avg_return_pct avg_winner_pct avg_loser_pct total_pnl
          max_drawdown_pct sharpe_ratio sortino_ratio profit_factor
          avg_days_held best_trade_pct worst_trade_pct).

End Metrics.

(* ================================================================== *)
(** * backtest/earnings_analyzer.py *)

(** The messages of [_generate_recommendation].  The constructors carry the
    numbers the message formats; [Recommendation_head] is the constant text
    each message starts with. *)
Inductive Recommendation : Type :=
| InsufficientNoTrades
| InsufficientNeedTen
| EdgeConfirmed (p_value win_rate_improvement return_improvement : Q)
| WeakEvidence (p_value : Q)
| Unexpected (p_value : Q)
| NoEdge (p_value : Q).

Definition Recommendation_head (r : Recommendation) : string :=
  match r with
  | InsufficientNoTrades =>
      "INSUFFICIENT DATA: Not enough trades to analyze earnings edge."
  | InsufficientNeedTen =>
      "INSUFFICIENT DATA: Need at least 10 trades in each group for reliable analysis."
  | EdgeConfirmed _ _ _ => "EARNINGS EDGE CONFIRMED"
  | WeakEvidence _ => "WEAK EVIDENCE"
  | Unexpected _ => "UNEXPECTED"
  | NoEdge _ => "NO EARNINGS EDGE"
  end.

(** The two messages that report insufficient data. *)
Definition insufficient_data (r : Recommendation) : bool :=
  match r with
  | InsufficientNoTrades | InsufficientNeedTen => true
  | _ => false
  end.

Record EarningsComparison : Type := mkEarningsComparison {
  pre_earnings : PerformanceMetrics;
  post_earnings : PerformanceMetrics;
  no_earnings : PerformanceMetrics;
  win_rate_diff : Q;
  avg_return_diff : Q;
  sharpe_diff : Q;
  is_significant : bool;
  p_value : Q;
  recommendation : Recommendation
}.

(** The three lists [_categorize_results] fills. *)
Record Categories : Type := mkCategories {
  pre_earnings_results : list BacktestResult;
  post_earnings_results : list BacktestResult;
  no_earnings_results : list BacktestResult
}.

Definition _approximate_p_value (t_stat df : Q) : Q :=
  if 30 <? df then
    let z := t_stat in
    if 3.0 <? z then 0.0027
    else if 2.5 <? z then 0.0124
    else if 2.0 <? z then 0.0455
    else if 1.96 <? z then 0.05
    else if 1.5 <? z then 0.1336
    else if 1.0 <? z then 0.3173
    else 0.5
  else
    if 2.5 <? t_stat then 0.02
    else if 2.0 <? t_stat then 0.06
    else if 1.5 <? t_stat then 0.15
    else 0.5.

Definition _generate_recommendation (pre_metrics post_metrics : PerformanceMetrics)
    (is_significant : bool) (p_value : Q) : Recommendation :=
  if (total_trades post_metrics =? 0)%Z && (total_trades pre_metrics =? 0)%Z
  then InsufficientNoTrades
  else if (total_trades post_metrics <? 10)%Z || (total_trades pre_metrics <? 10)%Z
  then InsufficientNeedTen
  else if is_significant
          && (avg_return_pct pre_metrics <? avg_return_pct post_metrics)
  then EdgeConfirmed p_value
         (win_rate post_metrics - win_rate pre_metrics)
         (avg_return_pct post_metrics - avg_return_pct pre_metrics)
  else if negb is_significant
          && (avg_return_pct pre_metrics <? avg_return_pct post_metrics)
  then WeakEvidence p_value
  else if is_significant
          && (avg_return_pct post_metrics <? avg_return_pct pre_metrics)
  then Unexpected p_value
  else NoEdge p_value.

Section Analyzer.

(** [date.today()], read by [Option.dte]. *)
Variable today : Z.

(** [math.sqrt]. *)
Variable sqrt : Q -> Q.

(** The loop of [_categorize_results]: each result is appended to one of
    the three lists. *)
Fixpoint categorize (results : list BacktestResult) (acc : Categories)
    : Categories :=
  match results with
  | [] => acc
  | r :: rest =>
      if had_earnings r then
        categorize rest
          (mkCategories (pre_earnings_results acc ++ [r])
             (post_earnings_results acc) (no_earnings_results acc))
      else if (0 <? Option.dte today (IronCondor.short_put (iron_condor r)))%Z then
        categorize rest
          (mkCategories (pre_earnings_results acc)
             (post_earnings_results acc ++ [r]) (no_earnings_results acc))
      else
        categorize rest
          (mkCategories (pre_earnings_results acc)
             (post_earnings_results acc) (no_earnings_results acc ++ [r]))
  end.

Definition _categorize_results (results : list BacktestResult) : Categories :=
  categorize results (mkCategories [] [] []).

Definition _t_test (sample1 sample2 : list Q) : result (bool * Q) :=
  if is_empty sample1 || is_empty sample2 then Ok (false, 1.0)
  else
    let n1 := pylen sample1 in
    let n2 := pylen sample2 in
    if (n1 <? 2)%Z || (n2 <? 2)%Z then Ok (false, 1.0)
    else
      mean1 <- pydiv (pysum sample1) (inject_Z n1) ;;
      mean2 <- pydiv (pysum sample2) (inject_Z n2) ;;
      var1 <- pydiv (pysum (map (fun x => (x - mean1) ^ 2) sample1))
                    (inject_Z (n1 - 1)) ;;
      var2 <- pydiv (pysum (map (fun x => (x - mean2) ^ 2) sample2))
                    (inject_Z (n2 - 1)) ;;
      se1 <- pydiv var1 (inject_Z n1) ;;
      se2 <- pydiv var2 (inject_Z n2) ;;
      let pooled_se := sqrt (se1 + se2) in
      if pooled_se =? 0 then Ok (false, 1.0)
      else
        t_stat <- pydiv (mean1 - mean2) pooled_se ;;
        d1 <- pydiv (se1 ^ 2) (inject_Z (n1 - 1)) ;;
        d2 <- pydiv (se2 ^ 2) (inject_Z (n2 - 1)) ;;
        df <- pydiv ((se1 + se2) ^ 2) (d1 + d2) ;;
        let p_value := _approximate_p_value (Qabs t_stat) df in
        let is_significant := p_value <? 0.05 in
        Ok (is_significant, p_value).

(** [EarningsEdgeAnalyzer(results).analyze()]. *)
Definition analyze (results : list BacktestResult) : result EarningsComparison :=
  let self := _categorize_results results in
  pre_metrics <- calculate_metrics sqrt (pre_earnings_results self) ;;
  post_metrics <- calculate_metrics sqrt (post_earnings_results self) ;;
  no_metrics <- calculate_metrics sqrt (no_earnings_results self) ;;
  let win_rate_diff := win_rate post_metrics - win_rate pre_metrics in
  let avg_return_diff := avg_return_pct post_metrics - avg_return_pct pre_metrics in
  let sharpe_diff := sharpe_ratio post_metrics - sharpe_ratio pre_metrics in
  test <- _t_test (map return_pct (post_earnings_results self))
                  (map return_pct (pre_earnings_results self)) ;;
  let '(is_significant, p_value) := test in
  let recommendation :=
    _generate_recommendation pre_metrics post_metrics is_significant p_value in
  Ok (mkEarningsComparison pre_metrics post_metrics no_metrics win_rate_diff
        avg_return_diff sharpe_diff is_significant p_value recommendation).

End Analyzer.



(* ================================================================== *)
(** * Notions used in the statements *)

(** The intrinsic spread value of each side at a price: short-leg intrinsic
    minus long-leg intrinsic, in the units of the strikes. *)
Definition put_intrinsic_spread (ic : IronCondor.t) (price : Q) : Q :=
  Qmax 0 (Option.strike (IronCondor.short_put ic) - price)
  - Qmax 0 (Option.strike (IronCondor.long_put ic) - price).

Definition call_intrinsic_spread (ic : IronCondor.t) (price : Q) : Q :=
  Qmax 0 (price - Option.strike (IronCondor.short_call ic))
  - Qmax 0 (price - Option.strike (IronCondor.long_call ic)).

(** The price lies strictly between the two short strikes. *)
Definition inside_tent (ic : IronCondor.t) (price : Q) : Prop :=
  Option.strike (IronCondor.short_put ic) < price
  /\ price < Option.strike (IronCondor.short_call ic).

Section ExitRules.

Variable today : Z.
Variable fromisoformat : string -> option Z.
Variable ic : IronCondor.t.
Variable entry : Z.
Variable exit_rule : ExitRule.
Variable earnings_date : option string.

(** The earnings date the simulator works with: none when the argument is
    absent, empty or does not parse. *)
Definition parsed_earnings : option Z :=
  match earnings_date with
  | Some s => if truthy earnings_date then fromisoformat s else None
  | None => None
  end.

(** The sample date lies in [[entry date, expiration]]. *)
Definition in_range (dt : Z) : Prop :=
  (entry <= dt <= IronCondor.expiration ic)%Z.

Definition earnings_due (dt : Z) : Prop :=
  (0 < close_before_earnings_days exit_rule)%Z /\
  exists earnings_dt, parsed_earnings = Some earnings_dt /\
    (0 <= earnings_dt - dt <= close_before_earnings_days exit_rule)%Z.

Definition min_dte_due (dt : Z) : Prop :=
  (IronCondor.expiration ic - dt <= min_dte_to_close exit_rule)%Z.

Definition profit_target_hit (current_value : Q) : Prop :=
  IronCondor.max_profit ic * profit_target_pct exit_rule
  <= IronCondor.net_credit ic - current_value.

Definition stop_loss_hit (current_value : Q) : Prop :=
  IronCondor.net_credit ic - current_value
  <= - IronCondor.max_loss ic * stop_loss_pct exit_rule.

(** [fires dt price reason cost]: on the sample [(dt, price)] the first rule
    that applies, in the order earnings, minimum DTE, profit target, stop
    loss, is [reason], and it closes the position at [cost]. *)
Inductive fires (dt : Z) (price : Q) : ExitReason -> Q -> Prop :=
| fires_earnings :
    earnings_due dt ->
    fires dt price earnings (IronCondor.max_profit ic * 0.30)
| fires_min_dte :
    ~ earnings_due dt ->
    min_dte_due dt ->
    fires dt price min_dte (IronCondor.max_profit ic * 0.25)
| fires_profit_target (v : Q) :
    ~ earnings_due dt ->
    ~ min_dte_due dt ->
    _estimate_position_value today ic price (IronCondor.expiration ic - dt) = Ok v ->
    profit_target_hit v ->
    fires dt price profit_target v
| fires_stop_loss (v : Q) :
    ~ earnings_due dt ->
    ~ min_dte_due dt ->
    _estimate_position_value today ic price (IronCondor.expiration ic - dt) = Ok v ->
    ~ profit_target_hit v ->
    stop_loss_hit v ->
    fires dt price stop_loss v.

(** No rule applies on the sample [(dt, price)]. *)
Definition quiet (dt : Z) (price : Q) : Prop :=
  ~ earnings_due dt /\ ~ min_dte_due dt /\
  exists v,
    _estimate_position_value today ic price (IronCondor.expiration ic - dt) = Ok v
    /\ ~ profit_target_hit v /\ ~ stop_loss_hit v.

End ExitRules.

(** The earnings-in-window flag [simulate_iron_condor] computes (lines
    95-102). *)
Definition had_earnings_of (fromisoformat : string -> option Z)
    (ic : IronCondor.t) (entry : Z) (earnings_date : option string) : bool :=
  truthy earnings_date &&
  match earnings_date with
  | Some s =>
      match fromisoformat s with
      | Some earnings_dt =>
          (entry <=? earnings_dt)%Z && (earnings_dt <=? IronCondor.expiration ic)%Z
      | None => false
      end
  | None => false
  end.

(** The order [sorted(results, key=lambda r: r.exit_date)] sorts by. *)
Definition by_exit_date (a b : BacktestResult) : Prop :=
  (exit_date a <= exit_date b)%Z.

(** The three groups of [_categorize_results], as tests on one outcome. *)
Definition is_pre (r : BacktestResult) : bool := had_earnings r.

Definition is_post (today : Z) (r : BacktestResult) : bool :=
  negb (had_earnings r)
  && (0 <? Option.dte today (IronCondor.short_put (iron_condor r)))%Z.

Definition is_no (today : Z) (r : BacktestResult) : bool :=
  negb (had_earnings r)
  && negb (0 <? Option.dte today (IronCondor.short_put (iron_condor r)))%Z.

(** The outcomes without the earnings flag: the remainder of the had-earnings
    group. *)
Definition remainder (results : list BacktestResult) : list BacktestResult :=
  filter (fun r => negb (had_earnings r)) results.

(** A square root on [Q] that is exact on the squares of rationals (and
    rounds down the numerator otherwise); it stands for [math.sqrt] where a
    statement evaluates the code on concrete numbers. *)
Definition Qsqrt (q : Q) : Q :=
  Z.sqrt (Qnum q * Zpos (Qden q)) # Qden q.

(* ================================================================== *)
(** * Fixtures *)

Module Fixture.

(** [date(2026, 1, 15)] and [date(2026, 2, 21)] as ordinals. *)
Definition entry : Z := 739631.
Definition exp : Z := 739668.

Definition leg (k : Q) (ty : OptionType) (b a d : Q) : Option.t :=
  Option.mk "SPY" k exp ty b a 100 1000 d 0.15 None None None None.

(** The legs of [sample_iron_condor] in tests/test_backtest.py. *)
Definition long_put : Option.t := leg 540.0 put 0.5 0.6 (-0.05).
Definition short_put : Option.t := leg 545.0 put 1.9 2.1 (-0.15).
Definition short_call : Option.t := leg 575.0 call 1.9 2.1 0.15.
Definition long_call : Option.t := leg 580.0 call 0.5 0.6 0.05.

(** [sample_iron_condor]: 540/545 puts, 575/580 calls, credit 2.90. *)
Definition sample_iron_condor : IronCondor.t :=
  IronCondor.mk "SPY" exp short_put long_put short_call long_call.

(** A structurally valid condor whose quoted credit (18.00) exceeds both
    wings (5.00): its [max_loss] is negative. *)
Definition rich_iron_condor : IronCondor.t :=
  IronCondor.mk "SPY" exp
    (leg 545.0 put 9.9 10.1 (-0.15)) (leg 540.0 put 0.9 1.1 (-0.05))
    (leg 575.0 call 9.9 10.1 0.15) (leg 580.0 call 0.9 1.1 0.05).

(** A parser that knows the one date [2026-02-24], three days after the
    expiration. *)
Definition one_date (s : string) : option Z :=
  if String.eqb s "2026-02-24" then Some 739671%Z else None.

(** An exit rule that holds to expiration: no minimum-DTE close, and a
    profit target above the maximum profit. *)
Definition hold_to_expiration : ExitRule := mkExitRule 2.0 1.0 (-1) 3.

(** The chain of the four sample legs. *)
Definition chain : list Option.t := [long_put; short_put; short_call; long_call].

(** A put chain in half-dollar strikes, listed by ascending strike, and a
    configuration with a put wing of 4.70. *)
Definition put_540_0 : Option.t := leg 540.0 put 0.5 0.6 (-0.05).
Definition put_540_5 : Option.t := leg 540.5 put 0.5 0.6 (-0.06).
Definition half_dollar_chain : list Option.t :=
  [put_540_0; put_540_5; short_put; short_call; long_call].
Definition wing_4_70 : StrategyConfig.t :=
  StrategyConfig.mk 30 45 0.15 0.25 4.7 5.0 true.

(** A hand-built outcome on the sample condor, as the tests build them:
    return [ret] percent of the maximum loss 2.10. *)
Definition outcome (ret : Q) (earn : bool) : BacktestResult :=
  let pnl := ret * 2.1 / 100 in
  mkBacktestResult sample_iron_condor entry exp expiration 2.9 (2.9 - pnl) pnl
    2.9 2.1 ret 37 (0 <? pnl) earn.

(** Two outcomes without earnings (returns 12 and 18) and two with
    earnings (returns -4 and 4). *)
Definition four_trades : list BacktestResult :=
  [outcome 12 false; outcome 18 false; outcome (-4) true; outcome 4 true].

End Fixture.

(* ================================================================== *)
(** * Arithmetic and boolean tests *)

Lemma Qltb_true (x y : Q) : (x <? y) = true <-> x < y.
Proof.
  unfold Qltb. rewrite negb_true_iff.
  split; intro H.
  - apply Qnot_le_lt. intro L. apply Qle_bool_iff in L. congruence.
  - destruct (y <=? x) eqn:E; [|reflexivity].
    apply Qle_bool_iff in E. exfalso. apply (Qlt_not_le _ _ H E).
Qed.

Lemma Qltb_false (x y : Q) : (x <? y) = false <-> y <= x.
Proof.
  unfold Qltb. rewrite negb_false_iff. apply Qle_bool_iff.
Qed.

Lemma Qleb_false (x y : Q) : (x <=? y) = false <-> y < x.
Proof.
  rewrite <- Qltb_true. unfold Qltb.
  destruct (x <=? y); simpl; split; congruence.
Qed.

Lemma Qeqb_false (x y : Q) : (x =? y) = false <-> ~ x == y.
Proof.
  split.
  - apply Qeq_bool_neq.
  - intro H. destruct (x =? y) eqn:E; [|reflexivity].
    apply Qeq_bool_iff in E. contradiction.
Qed.

Lemma Qleb_not (x y : Q) : ~ x <= y -> (x <=? y) = false.
Proof.
  intro H. apply Qleb_false. apply Qnot_le_lt. exact H.
Qed.

(** Turn the boolean tests among the hypotheses into order facts. *)
Ltac qprop :=
  repeat match goal with
  | H : (_ && _) = true |- _ => apply andb_true_iff in H; destruct H
  | H : (_ || _) = false |- _ => apply orb_false_iff in H; destruct H
  | H : (_ <? _) = true |- _ => apply Qltb_true in H
  | H : (_ <? _) = false |- _ => apply Qltb_false in H
  | H : (_ <=? _) = true |- _ => apply Qle_bool_iff in H
  | H : (_ <=? _) = false |- _ => apply Qleb_false in H
  | H : (_ =? _) = true |- _ => apply Qeq_bool_iff in H
  | H : (_ =? _) = false |- _ => apply Qeqb_false in H
  end.

Lemma pydiv_ok (a b : Q) : ~ b == 0 -> pydiv a b = Ok (a / b).
Proof.
  intro H. unfold pydiv. apply Qeqb_false in H. now rewrite H.
Qed.

Lemma Qmax_nonpos (x : Q) : x <= 0 -> Qmax 0 x == 0.
Proof.
  intro H. destruct (Q.max_spec 0 x) as [[L _]|[_ E]]; [lra | exact E].
Qed.

Lemma Qmax_nonneg (x : Q) : 0 <= x -> Qmax 0 x == x.
Proof.
  intro H. destruct (Q.max_spec 0 x) as [[_ E]|[L E]]; [exact E | lra].
Qed.

(* ================================================================== *)
(** * The validated Spread *)

Lemma validated_strikes (ic : IronCondor.t) :
  IronCondor.validated ic ->
  Option.strike (IronCondor.long_put ic) < Option.strike (IronCondor.short_put ic)
  /\ Option.strike (IronCondor.short_call ic) < Option.strike (IronCondor.long_call ic)
  /\ Option.strike (IronCondor.short_put ic) < Option.strike (IronCondor.short_call ic).
Proof.
  unfold IronCondor.validated, IronCondor.post_init.
  repeat match goal with
  | |- context [if ?b then Raise _ else _] => destruct b eqn:?; [discriminate|]
  end.
  intros _. qprop. auto.
Qed.

Lemma sample_validated : IronCondor.validated Fixture.sample_iron_condor.
Proof. reflexivity. Qed.

Lemma rich_validated : IronCondor.validated Fixture.rich_iron_condor.
Proof. reflexivity. Qed.

(* ================================================================== *)
(** * Valuation at expiration (C1) *)

Lemma put_intrinsic_spread_bounds (ic : IronCondor.t) (price : Q) :
  IronCondor.validated ic ->
  0 <= put_intrinsic_spread ic price <= IronCondor.put_side_width ic.
Proof.
  intro V. destruct (validated_strikes ic V) as (Hp & _ & _).
  unfold put_intrinsic_spread, IronCondor.put_side_width.
  set (sp := Option.strike (IronCondor.short_put ic)) in *.
  set (lp := Option.strike (IronCondor.long_put ic)) in *.
  destruct (Q.max_spec 0 (sp - price)) as [[? E1]|[? E1]];
  destruct (Q.max_spec 0 (lp - price)) as [[? E2]|[? E2]];
  rewrite E1, E2; lra.
Qed.

Lemma call_intrinsic_spread_bounds (ic : IronCondor.t) (price : Q) :
  IronCondor.validated ic ->
  0 <= call_intrinsic_spread ic price <= IronCondor.call_side_width ic.
Proof.
  intro V. destruct (validated_strikes ic V) as (_ & Hc & _).
  unfold call_intrinsic_spread, IronCondor.call_side_width.
  set (sc := Option.strike (IronCondor.short_call ic)) in *.
  set (lc := Option.strike (IronCondor.long_call ic)) in *.
  destruct (Q.max_spec 0 (price - sc)) as [[? E1]|[? E1]];
  destruct (Q.max_spec 0 (price - lc)) as [[? E2]|[? E2]];
  rewrite E1, E2; lra.
Qed.

(** C1, as stated, fails on the code: on the sample condor of the test suite
    (puts 540/545) a final price of 540 is valued at 500, which is neither the
    put side's intrinsic spread value (5) nor within the put wing width (5). *)
Lemma C1_counterexample :
  IronCondor.validated Fixture.sample_iron_condor
  /\ 540 <= Option.strike (IronCondor.short_put Fixture.sample_iron_condor)
  /\ _calculate_expiration_value Fixture.sample_iron_condor 540 == 500
  /\ put_intrinsic_spread Fixture.sample_iron_condor 540 == 5
  /\ IronCondor.put_side_width Fixture.sample_iron_condor == 5
  /\ ~ _calculate_expiration_value Fixture.sample_iron_condor 540
       == put_intrinsic_spread Fixture.sample_iron_condor 540
  /\ ~ _calculate_expiration_value Fixture.sample_iron_condor 540
       <= IronCondor.put_side_width Fixture.sample_iron_condor.
Proof.
  repeat split; try reflexivity; vm_compute; congruence.
Qed.

(** C1 (amended): for a validated Spread the expiration valuation is 0 when
    the final price lies strictly between the short strikes, and otherwise 100
    times the breached side's intrinsic spread value; it lies between 0 and
    100 times that side's wing width. *)
Theorem C1_expiration_value :
  forall (ic : IronCondor.t) (final_price : Q),
    IronCondor.validated ic ->
    (inside_tent ic final_price ->
       _calculate_expiration_value ic final_price == 0)
    /\ (final_price <= Option.strike (IronCondor.short_put ic) ->
          _calculate_expiration_value ic final_price
            == 100 * put_intrinsic_spread ic final_price
          /\ 0 <= _calculate_expiration_value ic final_price
               <= 100 * IronCondor.put_side_width ic)
    /\ (Option.strike (IronCondor.short_call ic) <= final_price ->
          _calculate_expiration_value ic final_price
            == 100 * call_intrinsic_spread ic final_price
          /\ 0 <= _calculate_expiration_value ic final_price
               <= 100 * IronCondor.call_side_width ic).
Proof.
  intros ic p V.
  pose proof (put_intrinsic_spread_bounds ic p V) as Bp.
  pose proof (call_intrinsic_spread_bounds ic p V) as Bc.
  destruct (validated_strikes ic V) as (Hp & Hc & Hs).
  unfold inside_tent, _calculate_expiration_value.
  fold (put_intrinsic_spread ic p). fold (call_intrinsic_spread ic p).
  set (sp := Option.strike (IronCondor.short_put ic)) in *.
  set (sc := Option.strike (IronCondor.short_call ic)) in *.
  destruct (sp <? p) eqn:E1; destruct (p <? sc) eqn:E2; simpl;
    destruct (p <=? sp) eqn:E3; try destruct (sc <=? p) eqn:E4; qprop;
    repeat split; intros; try lra.
Qed.

Lemma C1_expiration_value_witness :
  _calculate_expiration_value Fixture.sample_iron_condor 540
    == 100 * put_intrinsic_spread Fixture.sample_iron_condor 540
  /\ 0 <= _calculate_expiration_value Fixture.sample_iron_condor 540
       <= 100 * IronCondor.put_side_width Fixture.sample_iron_condor.
Proof.
  apply (C1_expiration_value Fixture.sample_iron_condor 540).
  - reflexivity.
  - vm_compute. congruence.
Defined.

(* ================================================================== *)
(** * Position valuation (C9) *)

Lemma position_value_total (today : Z) (ic : IronCondor.t) (price : Q) (dte : Z) :
  exists v, _estimate_position_value today ic price dte = Ok v.
Proof.
  unfold _estimate_position_value.
  destruct (_ && _).
  - rewrite pydiv_ok; [simpl; eauto|].
    intro H. unfold Qeq in H. simpl in H. lia.
  - destruct (_ <=? _); [eauto|]. destruct (_ <=? _); eauto.
Qed.

(** C9, as stated, fails on the code: a structurally valid condor quoted at a
    credit of 18.00 on 5.00 wings has a maximum loss of -13.00, and at a price
    equal to its short put strike (545) the valuation returns -13, not 0. *)
Lemma C9_counterexample :
  IronCondor.validated Fixture.rich_iron_condor
  /\ 545 == Option.strike (IronCondor.short_put Fixture.rich_iron_condor)
  /\ exists v,
       _estimate_position_value Fixture.entry Fixture.rich_iron_condor 545 10 = Ok v
       /\ v == -13 /\ ~ v == 0.
Proof.
  split; [reflexivity|]. split; [reflexivity|].
  eexists. split; [vm_compute; reflexivity|].
  split; vm_compute; congruence.
Qed.

(** C9 (amended): for a validated Spread and any remaining DTE, at a price
    equal to the short put strike or to the short call strike the valuation
    takes the breached-side branch, where both intrinsics are 0, and returns
    the smaller of 0 and the maximum loss: 0 whenever the maximum loss is not
    negative.  The result depends neither on the DTE nor on the time decay. *)
Theorem C9_value_at_short_strike :
  forall (today : Z) (ic : IronCondor.t) (price : Q) (dte : Z),
    IronCondor.validated ic ->
    price == Option.strike (IronCondor.short_put ic)
    \/ price == Option.strike (IronCondor.short_call ic) ->
    exists v,
      _estimate_position_value today ic price dte = Ok v
      /\ v == Qmin 0 (IronCondor.max_loss ic)
      /\ (0 <= IronCondor.max_loss ic -> v == 0).
Proof.
  intros today ic p dte V Hp.
  destruct (validated_strikes ic V) as (H1 & H2 & H3).
  unfold _estimate_position_value.
  set (sp := Option.strike (IronCondor.short_put ic)) in *.
  set (sc := Option.strike (IronCondor.short_call ic)) in *.
  set (lp := Option.strike (IronCondor.long_put ic)) in *.
  set (lc := Option.strike (IronCondor.long_call ic)) in *.
  set (ml := IronCondor.max_loss ic).
  assert (Hin : (sp <? p) && (p <? sc) = false).
  { apply andb_false_iff. destruct Hp as [E|E]; [left|right];
      apply Qltb_false; lra. }
  rewrite Hin.
  assert (Hmin : forall x, x == 0 ->
            Qmin x ml == Qmin 0 ml /\ (0 <= ml -> Qmin x ml == 0)).
  { intros x Hx.
    destruct (Q.min_spec x ml) as [[? E1]|[? E1]];
    destruct (Q.min_spec 0 ml) as [[? E2]|[? E2]];
    rewrite E1, E2; split; intros; lra. }
  destruct (p <=? sp) eqn:E1; [|destruct (sc <=? p) eqn:E2]; qprop.
  - eexists. split; [reflexivity|]. apply Hmin.
    rewrite (Qmax_nonpos (sp - p)), (Qmax_nonpos (lp - p)); lra.
  - eexists. split; [reflexivity|]. apply Hmin.
    rewrite (Qmax_nonpos (p - sc)), (Qmax_nonpos (p - lc)); lra.
  - exfalso. destruct Hp; lra.
Qed.

Lemma C9_value_at_short_strike_witness :
  exists v,
    _estimate_position_value Fixture.entry Fixture.sample_iron_condor 545 10 = Ok v
    /\ v == Qmin 0 (IronCondor.max_loss Fixture.sample_iron_condor)
    /\ (0 <= IronCondor.max_loss Fixture.sample_iron_condor -> v == 0).
Proof.
  apply (C9_value_at_short_strike Fixture.entry Fixture.sample_iron_condor 545 10).
  - reflexivity.
  - left. reflexivity.
Defined.

(* ================================================================== *)
(** * The simulation loop *)

Section WalkFacts.

Variable today : Z.
Variable fromisoformat : string -> option Z.
Variable ic : IronCondor.t.
Variable entry : Z.
Variable exit_rule : ExitRule.
Variable earnings_date : option string.

Let walk' := walk today fromisoformat ic entry exit_rule earnings_date.
Let exit_rules' := exit_rules today fromisoformat ic exit_rule earnings_date.
Let quiet' := quiet today fromisoformat ic exit_rule earnings_date.
Let fires' := fires today fromisoformat ic exit_rule earnings_date.

Lemma earnings_rule_due (dt : Z) :
  earnings_rule fromisoformat exit_rule earnings_date dt = true
  <-> earnings_due fromisoformat exit_rule earnings_date dt.
Proof.
  unfold earnings_rule, earnings_due, parsed_earnings.
  destruct earnings_date as [s|]; simpl.
  - destruct (negb (String.eqb s EmptyString)); simpl.
    + destruct (fromisoformat s) as [e|].
      * rewrite !andb_true_iff, Z.ltb_lt, !Z.leb_le. split.
        -- intros (? & ? & ?). split; [assumption|]. exists e. auto.
        -- intros (? & e' & He & ? & ?). inversion He; subst. auto.
      * rewrite andb_false_r. split; [discriminate|].
        intros (_ & e' & He & _). discriminate.
    + split; [discriminate|]. intros (_ & e' & He & _). discriminate.
  - split; [discriminate|]. intros (_ & e' & He & _). discriminate.
Qed.

Lemma earnings_rule_not_due (dt : Z) :
  ~ earnings_due fromisoformat exit_rule earnings_date dt ->
  earnings_rule fromisoformat exit_rule earnings_date dt = false.
Proof.
  intro H. destruct (earnings_rule _ _ _ dt) eqn:E; [|reflexivity].
  apply earnings_rule_due in E. contradiction.
Qed.

Lemma min_dte_not_due (dt : Z) :
  ~ min_dte_due ic exit_rule dt ->
  (IronCondor.expiration ic - dt <=? min_dte_to_close exit_rule)%Z = false.
Proof.
  unfold min_dte_due. intro H. apply Z.leb_gt. lia.
Qed.

Lemma exit_rules_fires (dt : Z) (price : Q) (reason : ExitReason) (cost : Q) :
  fires' dt price reason cost ->
  exit_rules' dt price = Ok (Some (dt, reason, cost)).
Proof.
  unfold exit_rules', exit_rules.
  intros [He | Hne Hm | v Hne Hnm Hv Hp | v Hne Hnm Hv Hnp Hs].
  - apply earnings_rule_due in He. rewrite He. reflexivity.
  - rewrite (earnings_rule_not_due dt Hne).
    unfold min_dte_due in Hm. apply Z.leb_le in Hm. rewrite Hm. reflexivity.
  - rewrite (earnings_rule_not_due dt Hne), (min_dte_not_due dt Hnm), Hv.
    simpl. unfold profit_target_hit in Hp.
    apply Qle_bool_iff in Hp. rewrite Hp. reflexivity.
  - rewrite (earnings_rule_not_due dt Hne), (min_dte_not_due dt Hnm), Hv.
    simpl. unfold profit_target_hit in Hnp. unfold stop_loss_hit in Hs.
    rewrite (Qleb_not _ _ Hnp).
    apply Qle_bool_iff in Hs. rewrite Hs. reflexivity.
Qed.

Lemma exit_rules_quiet (dt : Z) (price : Q) :
  quiet' dt price -> exit_rules' dt price = Ok None.
Proof.
  unfold exit_rules', exit_rules.
  intros (Hne & Hnm & v & Hv & Hnp & Hns).
  rewrite (earnings_rule_not_due dt Hne), (min_dte_not_due dt Hnm), Hv.
  simpl. unfold profit_target_hit in Hnp. unfold stop_loss_hit in Hns.
  rewrite (Qleb_not _ _ Hnp), (Qleb_not _ _ Hns). reflexivity.
Qed.

(** Samples dated before the entry and quiet samples in range are passed
    over. *)
Lemma walk_skip (pre rest : list (Z * Q)) :
  Forall (fun s => (fst s < entry)%Z
                   \/ (in_range ic entry (fst s) /\ quiet' (fst s) (snd s))) pre ->
  walk' (pre ++ rest) = walk' rest.
Proof.
  induction 1 as [|[dt price] pre Hs _ IH]; [reflexivity|].
  simpl. fold walk'. simpl in Hs. destruct Hs as [Hb | [[H1 H2] Hq]].
  - apply Z.ltb_lt in Hb. rewrite Hb. exact IH.
  - assert (E1 : (dt <? entry)%Z = false) by (apply Z.ltb_ge; lia).
    assert (E2 : (IronCondor.expiration ic <? dt)%Z = false)
      by (apply Z.ltb_ge; lia).
    rewrite E1, E2. fold exit_rules'.
    rewrite (exit_rules_quiet dt price Hq). simpl. exact IH.
Qed.

(** The first sample in range on which a rule fires ends the walk. *)
Lemma walk_fires (dt : Z) (price : Q) (rest : list (Z * Q))
    (reason : ExitReason) (cost : Q) :
  in_range ic entry dt ->
  fires' dt price reason cost ->
  walk' ((dt, price) :: rest) = Ok (dt, reason, cost).
Proof.
  intros [H1 H2] Hf. simpl.
  assert (E1 : (dt <? entry)%Z = false) by (apply Z.ltb_ge; lia).
  assert (E2 : (IronCondor.expiration ic <? dt)%Z = false)
    by (apply Z.ltb_ge; lia).
  rewrite E1, E2. fold exit_rules'.
  rewrite (exit_rules_fires dt price reason cost Hf). reflexivity.
Qed.


(** The outcome record built from the state the walk ends in.  The
    simulator never raises. *)
Lemma simulate_of_walk (path : list (Z * Q)) (d : Z) (reason : ExitReason)
    (cost : Q) :
  walk' path = Ok (d, reason, cost) ->
  exists r,
    simulate_iron_condor today fromisoformat ic entry exit_rule path
      earnings_date = Ok r
    /\ exit_date r = d
    /\ exit_reason r = reason
    /\ exit_cost r =
         match reason with
         | expiration => _calculate_expiration_value ic (final_price_of path)
         | _ => cost
         end
    /\ entry_credit r = IronCondor.net_credit ic
    /\ realized_pnl r = IronCondor.net_credit ic - exit_cost r
    /\ iron_condor r = ic
    /\ entry_date r = entry.
Proof.
  intro Hw. unfold simulate_iron_condor. fold walk'. rewrite Hw. simpl.
  destruct (0 <? IronCondor.max_loss ic) eqn:E.
  - qprop. rewrite pydiv_ok by lra. simpl. eexists.
    split; [reflexivity|]. simpl. repeat split; reflexivity.
  - simpl. eexists. split; [reflexivity|]. simpl. repeat split; reflexivity.
Qed.

End WalkFacts.



(* ================================================================== *)
(** * Holding to expiration (C2) *)




(* ================================================================== *)
(** * Priority of the exit rules (C6) *)

(** C6: the samples dated before the entry are skipped; on each sample dated
    from the entry date to the expiration the rules are tried in the order
    earnings, minimum DTE, profit target, stop loss ([fires]); the first
    sample on which a rule applies ends the simulation on that date with that
    rule's reason and exit cost: 30% of the maximum profit for an earnings
    exit, 25% for a minimum-DTE exit, the estimated position value for the
    profit target and the stop loss. *)
Theorem C6_exit_rule_priority :
  forall (today : Z) (fromisoformat : string -> option Z) (ic : IronCondor.t)
         (entry : Z) (exit_rule : ExitRule) (earnings_date : option string)
         (pre post : list (Z * Q)) (dt : Z) (price : Q)
         (reason : ExitReason) (cost : Q),
    Forall (fun s =>
              (fst s < entry)%Z
              \/ (in_range ic entry (fst s)
                  /\ quiet today fromisoformat ic exit_rule earnings_date
                       (fst s) (snd s))) pre ->
    in_range ic entry dt ->
    fires today fromisoformat ic exit_rule earnings_date dt price reason cost ->
    exists r,
      simulate_iron_condor today fromisoformat ic entry exit_rule
        (pre ++ (dt, price) :: post) earnings_date = Ok r
      /\ exit_date r = dt
      /\ exit_reason r = reason
      /\ exit_cost r = cost
      /\ (reason = earnings -> cost = IronCondor.max_profit ic * 0.30)
      /\ (reason = min_dte -> cost = IronCondor.max_profit ic * 0.25).
Proof.
  intros today fromiso ic entry er ed pre post dt price reason cost Hpre Hr Hf.
  assert (Hw : walk today fromiso ic entry er ed (pre ++ (dt, price) :: post)
               = Ok (dt, reason, cost)).
  { rewrite (walk_skip today fromiso ic entry er ed pre _ Hpre).
    apply walk_fires; assumption. }
  destruct (simulate_of_walk today fromiso ic entry er ed _ _ _ _ Hw)
    as (r & Hsim & Hd & Hreason & Hcost & _).
  exists r. repeat split; try assumption.
  - rewrite Hcost. destruct Hf; reflexivity.
  - intro E. destruct Hf; try discriminate E. reflexivity.
  - intro E. destruct Hf; try discriminate E. reflexivity.
Qed.

Lemma C6_exit_rule_priority_witness :
  exists r,
    simulate_iron_condor Fixture.entry Fixture.one_date Fixture.sample_iron_condor
      Fixture.entry Fixture.hold_to_expiration
      ([((Fixture.entry - 1)%Z, 550); (Fixture.entry, 560)]
         ++ (Fixture.exp, 560) :: [])
      (Some "2026-02-24"%string) = Ok r
    /\ exit_date r = Fixture.exp
    /\ exit_reason r = earnings
    /\ exit_cost r = IronCondor.max_profit Fixture.sample_iron_condor * 0.30.
Proof.
  destruct (C6_exit_rule_priority Fixture.entry Fixture.one_date
              Fixture.sample_iron_condor Fixture.entry Fixture.hold_to_expiration
              (Some "2026-02-24"%string)
              [((Fixture.entry - 1)%Z, 550); (Fixture.entry, 560)] []
              Fixture.exp 560 earnings
              (IronCondor.max_profit Fixture.sample_iron_condor * 0.30))
    as (r & Hsim & Hd & Hreason & Hcost & _).
  - apply Forall_cons; [left; simpl; unfold Fixture.entry; lia|].
    apply Forall_cons; [|apply Forall_nil]. right. split.
    + split; simpl; unfold Fixture.entry, Fixture.exp; lia.
    + split.
      { intros (_ & e & He & Hr). vm_compute in He. inversion He; subst e.
        simpl in Hr. unfold Fixture.entry in Hr. lia. }
      split; [vm_compute; intro H; apply H; reflexivity|].
      eexists. split; [vm_compute; reflexivity|].
      split; vm_compute; intro H; apply H; reflexivity.
  - split; simpl; unfold Fixture.entry, Fixture.exp; lia.
  - apply fires_earnings. split; [simpl; lia|].
    exists 739671%Z. split; [reflexivity|]. simpl. unfold Fixture.exp. lia.
  - exists r. repeat split; assumption.
Defined.

(* ================================================================== *)
(** * The empty price path (C10) *)

(** C10: with an empty price path the simulator does not raise; it returns an
    outcome with exit reason [expiration], dated at the expiration, whose exit
    cost is the expiration value at a final price of 0.0: for a validated
    Spread with non-negative strikes, the put side fully breached (100 times
    the put wing width). *)
Theorem C10_empty_price_path :
  forall (today : Z) (fromisoformat : string -> option Z) (ic : IronCondor.t)
         (entry : Z) (exit_rule : ExitRule) (earnings_date : option string),
    exists r,
      simulate_iron_condor today fromisoformat ic entry exit_rule []
        earnings_date = Ok r
      /\ exit_reason r = expiration
      /\ exit_date r = IronCondor.expiration ic
      /\ exit_cost r = _calculate_expiration_value ic 0.0
      /\ realized_pnl r
         = IronCondor.net_credit ic - _calculate_expiration_value ic 0.0
      /\ (IronCondor.validated ic ->
          0 <= Option.strike (IronCondor.long_put ic) ->
          exit_cost r == 100 * IronCondor.put_side_width ic).
Proof.
  intros today fromiso ic entry er ed.
  destruct (simulate_of_walk today fromiso ic entry er ed [] _ _ _ eq_refl)
    as (r & Hsim & Hd & Hreason & Hcost & _ & Hpnl & _).
  simpl in Hcost. exists r. repeat split; try assumption.
  - rewrite Hpnl, Hcost. reflexivity.
  - intros V Hlp. rewrite Hcost.
    destruct (validated_strikes ic V) as (H1 & H2 & H3).
    unfold _calculate_expiration_value, IronCondor.put_side_width.
    set (sp := Option.strike (IronCondor.short_put ic)) in *.
    set (lp := Option.strike (IronCondor.long_put ic)) in *.
    assert (E1 : (sp <? 0.0) = false) by (apply Qltb_false; lra).
    assert (E2 : (0.0 <=? sp) = true) by (apply Qle_bool_iff; lra).
    rewrite E1, E2. simpl.
    rewrite (Qmax_nonneg (sp - 0.0)), (Qmax_nonneg (lp - 0.0)); lra.
Qed.

Lemma C10_empty_price_path_witness :
  exists r,
    simulate_iron_condor Fixture.entry Fixture.one_date Fixture.sample_iron_condor
      Fixture.entry default_ExitRule [] None = Ok r
    /\ exit_reason r = expiration
    /\ exit_date r = Fixture.exp
    /\ exit_cost r == 500.
Proof.
  destruct (C10_empty_price_path Fixture.entry Fixture.one_date
              Fixture.sample_iron_condor Fixture.entry default_ExitRule None)
    as (r & Hsim & Hreason & Hd & _ & _ & Hfull).
  exists r. repeat split; try assumption.
  rewrite Hfull; [reflexivity | reflexivity | vm_compute; congruence].
Defined.

(* ================================================================== *)
(** * The candidate generator (C4, C5) *)

Lemma is_valid_condor_spec (ic : IronCondor.t) :
  _is_valid_condor ic = true <->
  0 < IronCondor.net_credit ic
  /\ 0 < IronCondor.max_loss ic
  /\ IronCondor.max_profit ic < IronCondor.put_side_width ic
  /\ IronCondor.max_profit ic < IronCondor.call_side_width ic.
Proof.
  unfold _is_valid_condor. split.
  - destruct (IronCondor.net_credit ic <=? 0) eqn:E1; [discriminate|].
    destruct (IronCondor.max_loss ic <=? 0) eqn:E2; [discriminate|].
    destruct (_ || _) eqn:E3; [discriminate|].
    intros _. qprop. auto.
  - intros (H1 & H2 & H3 & H4).
    apply Qleb_false in H1, H2, H3, H4. rewrite H1, H2, H3, H4. reflexivity.
Qed.

(** Every condor yielded for one expiration passed [_is_valid_condor]. *)
Lemma generate_for_expiration_valid (options : list Option.t) (expiration : Z)
    (config : StrategyConfig.t) (ic : IronCondor.t) :
  In ic (_generate_condors_for_expiration options expiration config) ->
  IronCondor.validated ic /\ _is_valid_condor ic = true.
Proof.
  unfold _generate_condors_for_expiration.
  destruct (_ || _); [intros []|].
  intro H. apply in_flat_map in H. destruct H as (sp & _ & H).
  destruct (_find_strike _ _ _) as [lp|]; [|destruct H].
  apply in_flat_map in H. destruct H as (sc & _ & H).
  destruct (_find_strike _ _ _) as [lc|]; [|destruct H].
  unfold IronCondor.new in H.
  destruct (IronCondor.post_init _) as [[]|e] eqn:V; simpl in H; [|destruct H].
  destruct (_is_valid_condor _) eqn:E; [|destruct H].
  destruct H as [H|[]]. subst ic. split; assumption.
Qed.

(** C4: every Spread the candidate generator emits has a positive net
    credit, a positive maximum loss, and a maximum profit below the put wing
    width and below the call wing width. *)
Theorem C4_generated_condors_valid :
  forall (today : Z) (options : list Option.t) (config : StrategyConfig.t)
         (ic : IronCondor.t),
    In ic (generate_iron_condors today options config) ->
    0 < IronCondor.net_credit ic
    /\ 0 < IronCondor.max_loss ic
    /\ IronCondor.max_profit ic < IronCondor.put_side_width ic
    /\ IronCondor.max_profit ic < IronCondor.call_side_width ic.
Proof.
  intros today options config ic. unfold generate_iron_condors.
  destruct (is_empty _); [intros []|].
  intro H. apply in_flat_map in H. destruct H as (item & _ & H).
  apply is_valid_condor_spec.
  apply (generate_for_expiration_valid _ _ _ _ H).
Qed.

Lemma C4_generated_condors_valid_witness :
  In Fixture.sample_iron_condor
    (generate_iron_condors Fixture.entry Fixture.chain StrategyConfig.default)
  /\ 0 < IronCondor.net_credit Fixture.sample_iron_condor
  /\ 0 < IronCondor.max_loss Fixture.sample_iron_condor
  /\ IronCondor.max_profit Fixture.sample_iron_condor
     < IronCondor.put_side_width Fixture.sample_iron_condor
  /\ IronCondor.max_profit Fixture.sample_iron_condor
     < IronCondor.call_side_width Fixture.sample_iron_condor.
Proof.
  assert (H : In Fixture.sample_iron_condor
                (generate_iron_condors Fixture.entry Fixture.chain
                   StrategyConfig.default))
    by (vm_compute; left; reflexivity).
  split; [exact H|].
  exact (C4_generated_condors_valid Fixture.entry Fixture.chain
           StrategyConfig.default Fixture.sample_iron_condor H).
Defined.

(** An exact match on the strike is preferred by [_find_strike]. *)
Lemma find_strike_exact (d : StrikeDict) (target tolerance : Q) (opt : Option.t) :
  dict_get d target = Some opt -> _find_strike d target tolerance = Some opt.
Proof.
  intro H. unfold _find_strike. rewrite H. reflexivity.
Qed.

(** Without an exact match [_find_strike] returns the first entry of the
    dictionary, in insertion order, that lies within the tolerance. *)
Lemma find_strike_first_within (d : StrikeDict) (target tolerance : Q) :
  dict_get d target = None ->
  _find_strike d target tolerance
  = option_map snd
      (find (fun item => Qabs (fst item - target) <=? tolerance) d).
Proof.
  intro H. unfold _find_strike. rewrite H.
  destruct (find _ d) as [[k v]|]; reflexivity.
Qed.

(** The candidate is skipped exactly when no strike lies within the
    tolerance. *)
Lemma find_strike_none (d : StrikeDict) (target tolerance : Q) :
  0 <= tolerance ->
  (_find_strike d target tolerance = None
   <-> forall k v, In (k, v) d -> tolerance < Qabs (k - target)).
Proof.
  intro Htol. unfold _find_strike. split.
  - destruct (dict_get d target); [discriminate|].
    destruct (find _ d) as [[k0 v0]|] eqn:F; [discriminate|].
    intros _ k v Hin.
    pose proof (find_none _ _ F _ Hin) as Hn. cbn [fst] in Hn.
    apply Qleb_false in Hn. exact Hn.
  - intro Hall.
    assert (Hg : dict_get d target = None).
    { induction d as [|[k v] d IH]; [reflexivity|]. simpl.
      destruct (k =? target) eqn:E.
      - qprop. specialize (Hall k v (or_introl eq_refl)).
        assert (Hz : Qabs (k - target) == 0).
        { assert (E0 : k - target == 0) by lra. rewrite E0. reflexivity. }
        lra.
      - apply IH. intros k' v' Hin. apply (Hall k' v'). right. exact Hin. }
    rewrite Hg.
    destruct (find _ d) as [[k0 v0]|] eqn:F; [|reflexivity].
    apply find_some in F. destruct F as [Hin Hle]. cbn [fst] in Hle. qprop.
    specialize (Hall _ _ Hin). lra.
Qed.

(** C5 on the code: a put chain in half-dollar strikes listed by ascending
    strike, a short put at 545 and a put wing of 4.70.  The target strike
    540.30 has no exact match; the strikes 540.0 (0.30 away) and 540.5 (0.20
    away) are both within the tolerance; [_find_strike] returns the 540.0
    contract, the first one met, although the 540.5 contract is nearer, and
    the generator builds its condor on it. *)
Theorem C5_find_strike_takes_first_within_tolerance :
  let puts_by_strike :=
    by_strike [Fixture.put_540_0; Fixture.put_540_5; Fixture.short_put] in
  let target := Option.strike Fixture.short_put - 4.7 in
  dict_get puts_by_strike target = None
  /\ Qabs (Option.strike Fixture.put_540_0 - target) == 0.3
  /\ Qabs (Option.strike Fixture.put_540_5 - target) == 0.2
  /\ _find_strike puts_by_strike target 0.5 = Some Fixture.put_540_0
  /\ map IronCondor.long_put
       (generate_iron_condors Fixture.entry Fixture.half_dollar_chain
          Fixture.wing_4_70)
     = [Fixture.put_540_0].
Proof.
  repeat split; vm_compute; reflexivity.
Qed.

(* ================================================================== *)
(** * The performance aggregator never raises *)

Lemma bind_ok {A B : Type} (c : result A) (k : A -> result B) (a : A) :
  c = Ok a -> bind c k = k a.
Proof. intro H. rewrite H. reflexivity. Qed.

Lemma inject_Z_nonzero (z : Z) : z <> 0%Z -> ~ inject_Z z == 0.
Proof. intros H E. unfold Qeq in E. simpl in E. lia. Qed.

Lemma pylen_pos {A : Type} (xs : list A) : xs <> [] -> (0 < pylen xs)%Z.
Proof.
  destruct xs; [congruence|]. intros _. unfold pylen. simpl. lia.
Qed.

Lemma is_empty_false {A : Type} (xs : list A) : is_empty xs = false -> xs <> [].
Proof. destruct xs; [discriminate | congruence]. Qed.

Lemma pydiv_len_ok {A : Type} (q : Q) (xs : list A) :
  xs <> [] -> pydiv q (inject_Z (pylen xs)) = Ok (q / inject_Z (pylen xs)).
Proof.
  intro H. apply pydiv_ok, inject_Z_nonzero.
  pose proof (pylen_pos xs H). lia.
Qed.

Lemma mean_or_zero_total (xs : list Q) : exists a, mean_or_zero xs = Ok a.
Proof.
  unfold mean_or_zero. destruct (is_empty xs) eqn:E; [eauto|].
  rewrite (pydiv_len_ok _ xs (is_empty_false xs E)). eauto.
Qed.

Lemma drawdown_walk_total (results : list BacktestResult) :
  forall cumulative_pnl peak max_dd,
  exists v, drawdown_walk results cumulative_pnl peak max_dd = Ok v.
Proof.
  induction results as [|r rest IH]; intros c p m; [simpl; eauto|].
  cbn [drawdown_walk]. cbv zeta.
  set (c' := c + realized_pnl r).
  set (p' := if p <? c' then c' else p).
  destruct (0 <? p') eqn:E.
  - qprop. rewrite pydiv_ok by lra. cbn [bind]. apply IH.
  - apply IH.
Qed.

Lemma max_drawdown_total (results : list BacktestResult) :
  exists v, _calculate_max_drawdown results = Ok v.
Proof.
  unfold _calculate_max_drawdown. destruct (is_empty results); [eauto|].
  apply drawdown_walk_total.
Qed.

Section MetricsFacts.

Variable sqrt : Q -> Q.

Lemma long_enough (xs : list Q) :
  is_empty xs || (pylen xs <? 2)%Z = false -> (2 <= pylen xs)%Z /\ xs <> [].
Proof.
  intro G. apply orb_false_iff in G. destruct G as [G1 G2].
  apply Z.ltb_ge in G2. split; [exact G2 | exact (is_empty_false xs G1)].
Qed.

Lemma sharpe_total (returns : list Q) (rf : Q) :
  exists v, _calculate_sharpe_ratio sqrt returns rf = Ok v.
Proof.
  unfold _calculate_sharpe_ratio.
  destruct (_ || _) eqn:G; [eauto|].
  destruct (long_enough returns G) as [Hlen Hne].
  rewrite (pydiv_len_ok _ returns Hne). cbn [bind].
  rewrite pydiv_ok by (apply inject_Z_nonzero; lia). cbn [bind]. cbv zeta.
  destruct (sqrt _ =? 0) eqn:S; [eauto|].
  qprop. rewrite (pydiv_ok _ _ S). cbn [bind]. eauto.
Qed.

Lemma sortino_total (returns : list Q) (rf : Q) :
  exists v, _calculate_sortino_ratio sqrt returns rf = Ok v.
Proof.
  unfold _calculate_sortino_ratio.
  destruct (_ || _) eqn:G; [eauto|].
  destruct (long_enough returns G) as [Hlen Hne].
  rewrite (pydiv_len_ok _ returns Hne). cbn [bind]. cbv zeta.
  destruct (is_empty (filter _ returns)) eqn:D; [eauto|].
  rewrite (pydiv_len_ok _ _ (is_empty_false _ D)). cbn [bind].
  destruct (sqrt _ =? 0) eqn:S; [eauto|].
  qprop. rewrite (pydiv_ok _ _ S). cbn [bind]. eauto.
Qed.


(** [calculate_metrics] returns for every input: each division is guarded.
    The summary counts the trades and carries the Sortino ratio of the
    returns. *)
Lemma calculate_metrics_total (results : list BacktestResult) :
  exists m,
    calculate_metrics sqrt results = Ok m
    /\ total_trades m = pylen results
    /\ _calculate_sortino_ratio sqrt (map return_pct results) 0.0
       = Ok (sortino_ratio m).
Proof.
  destruct results as [|r0 rest].
  { eexists. split; [reflexivity|]. split; reflexivity. }
  set (results := r0 :: rest).
  assert (Hne : results <> []) by discriminate.
  unfold calculate_metrics. cbv zeta.
  change (is_empty results) with false. cbv iota.
  pose proof (pylen_pos results Hne) as Hpos.
  assert (E : (0 <? pylen results)%Z = true) by (apply Z.ltb_lt; exact Hpos).
  rewrite E, (pydiv_len_ok _ results Hne). cbn [bind].
  destruct (mean_or_zero_total (map return_pct results)) as [a1 H1].
  rewrite (bind_ok _ _ _ H1).
  destruct (mean_or_zero_total (map return_pct (filter is_winner results)))
    as [a2 H2].
  rewrite (bind_ok _ _ _ H2).
  destruct (mean_or_zero_total
              (map return_pct (filter (fun r => negb (is_winner r)) results)))
    as [a3 H3].
  rewrite (bind_ok _ _ _ H3).
  match goal with
  | |- context [bind (if ?b then pydiv ?x ?y else Ok 0.0) _] =>
      assert (H4 : exists pf, (if b then pydiv x y else Ok 0.0) = Ok pf)
  end.
  { destruct (0 <? _) eqn:E4; [|eauto].
    qprop. rewrite pydiv_ok by lra. eauto. }
  destruct H4 as [pf H4]. rewrite (bind_ok _ _ _ H4).
  destruct (max_drawdown_total results) as [dd H5].
  rewrite (bind_ok _ _ _ H5).
  destruct (sharpe_total (map return_pct results) 0.0) as [sh H6].
  rewrite (bind_ok _ _ _ H6).
  destruct (sortino_total (map return_pct results) 0.0) as [so H7].
  rewrite (bind_ok _ _ _ H7).
  rewrite (pydiv_len_ok _ results Hne). cbn [bind].
  eexists. split; [reflexivity|]. cbn [total_trades sortino_ratio].
  split; [reflexivity | exact H7].
Qed.

End MetricsFacts.

(* ================================================================== *)
(** * The Sortino sentinel (C8) *)




(* ================================================================== *)
(** * The earnings-edge analyzer (C3, C7) *)

Section AnalyzerFacts.

Variable today : Z.
Variable sqrt : Q -> Q.

(** The one property of [math.sqrt] the analysis relies on. *)
Hypothesis sqrt_zero : forall x, x == 0 -> sqrt x == 0.

Lemma categorize_filter (results : list BacktestResult) (acc : Categories) :
  categorize today results acc
  = mkCategories
      (pre_earnings_results acc ++ filter is_pre results)
      (post_earnings_results acc ++ filter (is_post today) results)
      (no_earnings_results acc ++ filter (is_no today) results).
Proof.
  revert acc. induction results as [|r rest IH]; intro acc.
  - simpl. rewrite !app_nil_r. destruct acc; reflexivity.
  - cbn [categorize filter]. unfold is_pre, is_post, is_no.
    destruct (had_earnings r); cbn [negb andb].
    + rewrite IH. cbn. rewrite <- app_assoc. reflexivity.
    + destruct (0 <? _)%Z; cbn [negb]; rewrite IH; cbn;
        rewrite <- app_assoc; reflexivity.
Qed.

Lemma categorize_results_filter (results : list BacktestResult) :
  _categorize_results today results
  = mkCategories (filter is_pre results) (filter (is_post today) results)
      (filter (is_no today) results).
Proof.
  unfold _categorize_results. rewrite categorize_filter. reflexivity.
Qed.


Lemma post_within_remainder (results : list BacktestResult) :
  (List.length (filter (is_post today) results)
   <= List.length (remainder results))%nat.
Proof.
  unfold remainder, is_post.
  induction results as [|r rest IH]; [reflexivity|].
  cbn [filter]. destruct (had_earnings r); cbn [negb andb]; [exact IH|].
  destruct (0 <? _)%Z; simpl; lia.
Qed.

Lemma square_nonneg (x : Q) : 0 <= x ^ 2.
Proof.
  simpl. destruct (Qlt_le_dec x 0) as [H|H]; nra.
Qed.

Lemma square_zero (x : Q) : x ^ 2 == 0 -> x == 0.
Proof.
  simpl. intro H. destruct (Qlt_le_dec x 0) as [L|L]; nra.
Qed.

(** The two-sample test returns for every pair of samples. *)
Lemma t_test_total (sample1 sample2 : list Q) :
  exists sig p, _t_test sqrt sample1 sample2 = Ok (sig, p).
Proof.
  unfold _t_test.
  destruct (is_empty sample1 || is_empty sample2) eqn:G0; [eauto|].
  cbv zeta. destruct ((pylen sample1 <? 2)%Z || (pylen sample2 <? 2)%Z) eqn:G;
    [eauto|].
  apply orb_false_iff in G0. destruct G0 as [N1 N2].
  apply is_empty_false in N1. apply is_empty_false in N2.
  apply orb_false_iff in G. destruct G as [L1 L2].
  apply Z.ltb_ge in L1. apply Z.ltb_ge in L2.
  rewrite (pydiv_len_ok _ sample1 N1). cbn [bind].
  rewrite (pydiv_len_ok _ sample2 N2). cbn [bind].
  rewrite pydiv_ok by (apply inject_Z_nonzero; lia). cbn [bind].
  rewrite pydiv_ok by (apply inject_Z_nonzero; lia). cbn [bind].
  rewrite (pydiv_len_ok _ sample1 N1). cbn [bind].
  rewrite (pydiv_len_ok _ sample2 N2). cbn [bind].
  match goal with
  | |- context [sqrt (?a + ?b)] => set (se1 := a); set (se2 := b)
  end.
  destruct (sqrt (se1 + se2) =? 0) eqn:S; [eauto|].
  qprop. rewrite (pydiv_ok _ _ S). cbn [bind].
  assert (P1 : 0 < inject_Z (pylen sample1 - 1)).
  { unfold Qlt. simpl. lia. }
  assert (P2 : 0 < inject_Z (pylen sample2 - 1)).
  { unfold Qlt. simpl. lia. }
  rewrite pydiv_ok by lra. cbn [bind].
  rewrite pydiv_ok by lra. cbn [bind].
  rewrite pydiv_ok; [cbn [bind]; eauto|].
  intro Hz. apply S. apply sqrt_zero.
  pose proof (square_nonneg se1) as Q1. pose proof (square_nonneg se2) as Q2.
  assert (D1 : 0 <= se1 ^ 2 / inject_Z (pylen sample1 - 1)).
  { apply Qle_shift_div_l; [exact P1 | lra]. }
  assert (D2 : 0 <= se2 ^ 2 / inject_Z (pylen sample2 - 1)).
  { apply Qle_shift_div_l; [exact P2 | lra]. }
  assert (Z1 : se1 ^ 2 / inject_Z (pylen sample1 - 1) == 0) by lra.
  assert (Z2 : se2 ^ 2 / inject_Z (pylen sample2 - 1) == 0) by lra.
  assert (S1 : se1 ^ 2 == 0).
  { rewrite <- (Qmult_div_r (se1 ^ 2) (inject_Z (pylen sample1 - 1))) by lra.
    rewrite Z1. ring. }
  assert (S2 : se2 ^ 2 == 0).
  { rewrite <- (Qmult_div_r (se2 ^ 2) (inject_Z (pylen sample2 - 1))) by lra.
    rewrite Z2. ring. }
  apply square_zero in S1. apply square_zero in S2. lra.
Qed.

Lemma recommendation_insufficient (pre_metrics post_metrics : PerformanceMetrics)
    (sig : bool) (p : Q) :
  (total_trades pre_metrics < 10 \/ total_trades post_metrics < 10)%Z ->
  insufficient_data (_generate_recommendation pre_metrics post_metrics sig p)
  = true.
Proof.
  intro H. unfold _generate_recommendation.
  destruct (_ && _); [reflexivity|].
  assert (E : (total_trades post_metrics <? 10)%Z
              || (total_trades pre_metrics <? 10)%Z = true).
  { apply orb_true_iff. destruct H as [H|H]; [right|left];
      apply Z.ltb_lt; exact H. }
  rewrite E. reflexivity.
Qed.

(** What [analyze] returns: a summary of each of the three groups and the
    outcome of the test on the returns of the post and pre groups. *)
Lemma analyze_total (results : list BacktestResult) :
  let self := _categorize_results today results in
  exists cmp,
    analyze today sqrt results = Ok cmp
    /\ calculate_metrics sqrt (pre_earnings_results self) = Ok (pre_earnings cmp)
    /\ calculate_metrics sqrt (post_earnings_results self) = Ok (post_earnings cmp)
    /\ calculate_metrics sqrt (no_earnings_results self) = Ok (no_earnings cmp)
    /\ _t_test sqrt (map return_pct (post_earnings_results self))
         (map return_pct (pre_earnings_results self))
       = Ok (is_significant cmp, p_value cmp)
    /\ recommendation cmp
       = _generate_recommendation (pre_earnings cmp) (post_earnings cmp)
           (is_significant cmp) (p_value cmp).
Proof.
  intro self. unfold analyze. fold self.
  destruct (calculate_metrics_total sqrt (pre_earnings_results self))
    as (m1 & H1 & _).
  destruct (calculate_metrics_total sqrt (post_earnings_results self))
    as (m2 & H2 & _).
  destruct (calculate_metrics_total sqrt (no_earnings_results self))
    as (m3 & H3 & _).
  destruct (t_test_total (map return_pct (post_earnings_results self))
              (map return_pct (pre_earnings_results self))) as (sig & p & H4).
  rewrite (bind_ok _ _ _ H1), (bind_ok _ _ _ H2), (bind_ok _ _ _ H3).
  cbv zeta. rewrite (bind_ok _ _ _ H4).
  eexists. split; [reflexivity|]. cbn.
  repeat split; assumption.
Qed.

End AnalyzerFacts.

Lemma Qsqrt_zero (x : Q) : x == 0 -> Qsqrt x == 0.
Proof.
  unfold Qeq, Qsqrt. simpl. intro H.
  assert (E : Qnum x = 0%Z) by lia. rewrite E. reflexivity.
Qed.




(** C7, as stated, fails on the code: with two outcomes in each group the
    recommendation reports insufficient data, and yet the significance test
    has been run on the returns: the comparison carries its verdict
    (significant, p = 0.02) and not the (not significant, p = 1.0) of a test
    that did not run. *)
Lemma C7_counterexample :
  let self := _categorize_results Fixture.entry Fixture.four_trades in
  (List.length (pre_earnings_results self) < 10)%nat
  /\ (List.length (post_earnings_results self) < 10)%nat
  /\ exists cmp,
       analyze Fixture.entry Qsqrt Fixture.four_trades = Ok cmp
       /\ recommendation cmp = InsufficientNeedTen
       /\ is_significant cmp = true
       /\ p_value cmp == 0.02
       /\ ~ p_value cmp == 1.0.
Proof.
  split; [vm_compute; lia|]. split; [vm_compute; lia|].
  eexists. split; [vm_compute; reflexivity|]. cbn.
  repeat split; try reflexivity. vm_compute. congruence.
Qed.

(** C7 (amended): when the had-earnings group, the remainder, or the post
    group has fewer than 10 trades, the analyzer returns one of the two
    insufficient-data recommendations.  The significance test is run all the
    same: the comparison reports the verdict and the p-value of [_t_test] on
    the returns of the post and pre groups. *)
Theorem C7_insufficient_data :
  forall (today : Z) (sqrt : Q -> Q) (results : list BacktestResult),
    (forall x, x == 0 -> sqrt x == 0) ->
    let self := _categorize_results today results in
    (List.length (pre_earnings_results self) < 10
     \/ List.length (remainder results) < 10
     \/ List.length (post_earnings_results self) < 10)%nat ->
    exists cmp,
      analyze today sqrt results = Ok cmp
      /\ insufficient_data (recommendation cmp) = true
      /\ _t_test sqrt (map return_pct (post_earnings_results self))
           (map return_pct (pre_earnings_results self))
         = Ok (is_significant cmp, p_value cmp).
Proof.
  intros today sqrt results Hsqrt self Hsmall.
  destruct (analyze_total today sqrt Hsqrt results)
    as (cmp & H0 & H1 & H2 & _ & H4 & H5).
  fold self in H1, H2, H4.
  exists cmp. split; [exact H0|]. split; [|exact H4].
  rewrite H5. apply recommendation_insufficient.
  destruct (calculate_metrics_total sqrt (pre_earnings_results self))
    as (m1 & E1 & T1 & _).
  destruct (calculate_metrics_total sqrt (post_earnings_results self))
    as (m2 & E2 & T2 & _).
  assert (m1 = pre_earnings cmp) by congruence.
  assert (m2 = post_earnings cmp) by congruence.
  subst m1 m2. rewrite T1, T2. unfold pylen.
  assert (Hpost : (List.length (post_earnings_results self)
                   <= List.length (remainder results))%nat).
  { unfold self. rewrite categorize_results_filter. cbn.
    apply post_within_remainder. }
  lia.
Qed.

Lemma C7_insufficient_data_witness :
  exists cmp,
    analyze Fixture.entry Qsqrt Fixture.four_trades = Ok cmp
    /\ insufficient_data (recommendation cmp) = true.
Proof.
  destruct (C7_insufficient_data Fixture.entry Qsqrt Fixture.four_trades
              Qsqrt_zero) as (cmp & Ha & Hr & _).
  - left. vm_compute. lia.
  - exists cmp. split; assumption.
Defined.

(* ================================================================== *)
(** * The derived quantities of the models *)

(** The maximum loss is the wider of the two wings less the credit, so the
    maximum profit and the maximum loss add up to the wider wing. *)
Theorem max_loss_wider_wing (ic : IronCondor.t) :
  IronCondor.max_loss ic
  == Qmax (IronCondor.put_side_width ic) (IronCondor.call_side_width ic)
     - IronCondor.net_credit ic
  /\ IronCondor.max_profit ic + IronCondor.max_loss ic
     == Qmax (IronCondor.put_side_width ic) (IronCondor.call_side_width ic).
Proof.
  unfold IronCondor.max_loss, IronCondor.max_loss_put_side,
    IronCondor.max_loss_call_side, IronCondor.max_profit.
  set (p := IronCondor.put_side_width ic).
  set (c := IronCondor.call_side_width ic).
  set (n := IronCondor.net_credit ic).
  destruct (Q.max_spec (p - n) (c - n)) as [[? E1]|[? E1]];
  destruct (Q.max_spec p c) as [[? E2]|[? E2]];
  rewrite E1, E2; split; lra.
Qed.

(** [return_on_risk] never raises: it is 0.0 when the maximum loss is not
    positive, otherwise 100 times the maximum profit over the maximum loss,
    which is positive for a condor that passes [_is_valid_condor]. *)
Theorem return_on_risk_guarded (ic : IronCondor.t) :
  exists ror,
    IronCondor.return_on_risk ic = Ok ror
    /\ (IronCondor.max_loss ic <= 0 -> ror = 0.0)
    /\ (0 < IronCondor.max_loss ic ->
        ror * IronCondor.max_loss ic == 100 * IronCondor.max_profit ic)
    /\ (_is_valid_condor ic = true -> 0 < ror).
Proof.
  unfold IronCondor.return_on_risk.
  destruct (IronCondor.max_loss ic <=? 0) eqn:E; qprop.
  - exists 0.0. split; [reflexivity|]. split; [reflexivity|].
    split; [intro; lra|].
    intro V. apply is_valid_condor_spec in V. lra.
  - rewrite pydiv_ok by lra. cbn [bind]. eexists. split; [reflexivity|].
    split; [intro; lra|]. split.
    + intros _. field. lra.
    + intro V. apply is_valid_condor_spec in V.
      destruct V as (V1 & _ & _ & _). unfold IronCondor.max_profit.
      apply Qmult_lt_0_compat; [|lra].
      apply Qlt_shift_div_l; lra.
Qed.

Lemma return_on_risk_guarded_witness :
  exists ror,
    IronCondor.return_on_risk Fixture.sample_iron_condor = Ok ror /\ 0 < ror.
Proof.
  destruct (return_on_risk_guarded Fixture.sample_iron_condor)
    as (ror & H & _ & _ & Hpos).
  exists ror. split; [exact H|]. apply Hpos. reflexivity.
Defined.

(** For a validated condor that passes [_is_valid_condor] each breakeven lies
    strictly between the long and the short strike of its side. *)
Theorem breakevens_within_wings (ic : IronCondor.t) :
  IronCondor.validated ic ->
  _is_valid_condor ic = true ->
  Option.strike (IronCondor.long_put ic) < IronCondor.put_side_breakeven ic
  /\ IronCondor.put_side_breakeven ic < Option.strike (IronCondor.short_put ic)
  /\ Option.strike (IronCondor.short_call ic) < IronCondor.call_side_breakeven ic
  /\ IronCondor.call_side_breakeven ic < Option.strike (IronCondor.long_call ic).
Proof.
  intros V Hv. apply is_valid_condor_spec in Hv.
  destruct Hv as (H1 & _ & H3 & H4).
  unfold IronCondor.put_side_breakeven, IronCondor.call_side_breakeven.
  unfold IronCondor.max_profit, IronCondor.put_side_width,
    IronCondor.call_side_width in *.
  repeat split; lra.
Qed.

Lemma breakevens_within_wings_witness :
  Option.strike (IronCondor.long_put Fixture.sample_iron_condor)
  < IronCondor.put_side_breakeven Fixture.sample_iron_condor
  /\ IronCondor.put_side_breakeven Fixture.sample_iron_condor
     < Option.strike (IronCondor.short_put Fixture.sample_iron_condor)
  /\ Option.strike (IronCondor.short_call Fixture.sample_iron_condor)
     < IronCondor.call_side_breakeven Fixture.sample_iron_condor
  /\ IronCondor.call_side_breakeven Fixture.sample_iron_condor
     < Option.strike (IronCondor.long_call Fixture.sample_iron_condor).
Proof.
  apply breakevens_within_wings; reflexivity.
Defined.

(** [bid_ask_spread_pct] never divides by zero: a mid price that is not
    positive gives infinity, and a quote with [0 < bid <= ask] gives a finite
    fraction in [[0, 2)]. *)
Theorem bid_ask_spread_pct_range (o : Option.t) :
  exists r,
    Option.bid_ask_spread_pct o = Ok r
    /\ (Option.mid o <= 0 -> r = None)
    /\ (0 < Option.bid o -> Option.bid o <= Option.ask o ->
        exists q, r = Some q /\ 0 <= q /\ q < 2).
Proof.
  unfold Option.bid_ask_spread_pct.
  destruct (Option.mid o <=? 0) eqn:E; qprop.
  - exists None. split; [reflexivity|]. split; [reflexivity|].
    unfold Option.mid in E. intros Hb Ha. exfalso.
    assert (0 < (Option.bid o + Option.ask o) / 2)
      by (apply Qlt_shift_div_l; lra).
    lra.
  - rewrite pydiv_ok by lra. cbn [bind]. eexists. split; [reflexivity|].
    split; [intro; lra|]. intros Hb Ha. eexists. split; [reflexivity|].
    split.
    + apply Qle_shift_div_l; lra.
    + apply Qlt_shift_div_r; [lra|]. unfold Option.mid.
      assert (Hm : 2 * ((Option.bid o + Option.ask o) / 2)
                   == Option.bid o + Option.ask o) by (field).
      lra.
Qed.

Lemma bid_ask_spread_pct_range_witness :
  exists q,
    Option.bid_ask_spread_pct Fixture.short_put = Ok (Some q) /\ 0 <= q /\ q < 2.
Proof.
  destruct (bid_ask_spread_pct_range Fixture.short_put) as (r & H & _ & Hq).
  destruct Hq as (q & Hr & Hb); [reflexivity | vm_compute; congruence|].
  exists q. subst r. split; assumption.
Defined.

(* ================================================================== *)
(** * The strike index and the grouping by expiration *)

(** Assigning a key and reading it back. *)
Lemma dict_get_set (d : StrikeDict) (k k' : Q) (v : Option.t) :
  dict_get (dict_set d k v) k'
  = if k =? k' then Some v else dict_get d k'.
Proof.
  induction d as [|[k0 v0] d IH]; simpl.
  - reflexivity.
  - destruct (k0 =? k) eqn:E0; simpl.
    + destruct (k0 =? k') eqn:E1; destruct (k =? k') eqn:E2;
        try reflexivity; qprop; exfalso.
      * apply E2. rewrite <- E0. exact E1.
      * apply E1. rewrite E0. exact E2.
    + destruct (k0 =? k') eqn:E1; [|exact IH].
      destruct (k =? k') eqn:E2; [|reflexivity].
      qprop. exfalso. apply E0. rewrite E1, E2. reflexivity.
Qed.

Lemma find_append {A : Type} (f : A -> bool) (l l' : list A) :
  find f (l ++ l')
  = match find f l with
    | Some x => Some x
    | None => find f l'
    end.
Proof.
  induction l as [|x l IH]; simpl; [reflexivity|].
  destruct (f x); [reflexivity | exact IH].
Qed.

Lemma by_strike_fold_get (opts : list Option.t) (d : StrikeDict) (k : Q) :
  dict_get (fold_left (fun d opt => dict_set d (Option.strike opt) opt) opts d) k
  = match find (fun opt => Option.strike opt =? k) (rev opts) with
    | Some opt => Some opt
    | None => dict_get d k
    end.
Proof.
  revert d. induction opts as [|o opts IH]; intro d; [reflexivity|].
  cbn [fold_left rev]. rewrite IH, dict_get_set.
  destruct (find _ (rev opts)) as [o'|] eqn:F.
  - rewrite find_append, F. reflexivity.
  - rewrite find_append, F. simpl.
    destruct (Option.strike o =? k); reflexivity.
Qed.

(** Looking a strike up in [{opt.strike: opt for opt in opts}] gives the last
    contract of the list with that strike: of two contracts with one strike
    the later one is kept. *)
Theorem by_strike_last_wins (opts : list Option.t) (k : Q) :
  dict_get (by_strike opts) k
  = find (fun opt => Option.strike opt =? k) (rev opts).
Proof.
  unfold by_strike. rewrite by_strike_fold_get.
  destruct (find _ (rev opts)); reflexivity.
Qed.

Lemma dict_set_entries (pool : list Option.t) (d : StrikeDict) (opt : Option.t) :
  In opt pool ->
  (forall k v, In (k, v) d -> k == Option.strike v /\ In v pool) ->
  forall k v, In (k, v) (dict_set d (Option.strike opt) opt) ->
              k == Option.strike v /\ In v pool.
Proof.
  intros Hin. induction d as [|[k0 v0] d IH]; intros Hd k v H.
  - destruct H as [H|[]]. inversion H; subst. split; [reflexivity | exact Hin].
  - simpl in H. destruct (k0 =? Option.strike opt) eqn:E.
    + destruct H as [H|H].
      * inversion H; subst. qprop. split; assumption.
      * apply Hd. right. exact H.
    + destruct H as [H|H].
      * apply Hd. left. exact H.
      * apply IH; [|exact H]. intros k1 v1 H1. apply Hd. right. exact H1.
Qed.

Lemma by_strike_entries (opts : list Option.t) :
  forall k v, In (k, v) (by_strike opts) -> k == Option.strike v /\ In v opts.
Proof.
  unfold by_strike.
  assert (G : forall (l : list Option.t) (d : StrikeDict),
            incl l opts ->
            (forall k v, In (k, v) d -> k == Option.strike v /\ In v opts) ->
            forall k v,
              In (k, v) (fold_left (fun d opt => dict_set d (Option.strike opt) opt) l d) ->
              k == Option.strike v /\ In v opts).
  { induction l as [|o l IH]; intros d Hl Hd k v H; [apply Hd; exact H|].
    cbn [fold_left] in H. apply (IH (dict_set d (Option.strike o) o)); try exact H.
    - intros x Hx. apply Hl. right. exact Hx.
    - apply dict_set_entries; [apply Hl; left; reflexivity | exact Hd]. }
  apply G; [apply incl_refl | intros k v []].
Qed.

Lemma dict_get_entry (d : StrikeDict) (k : Q) (v : Option.t) :
  dict_get d k = Some v -> exists k', In (k', v) d /\ k' == k.
Proof.
  induction d as [|[k0 v0] d IH]; simpl; [discriminate|].
  destruct (k0 =? k) eqn:E.
  - intro H. inversion H; subst. qprop. exists k0. split; [left; reflexivity | exact E].
  - intro H. destruct (IH H) as (k' & Hin & Hk). exists k'. split; [right|]; assumption.
Qed.

Lemma find_strike_sound (opts : list Option.t)
    (target tolerance : Q) (opt : Option.t) :
  0 <= tolerance ->
  _find_strike (by_strike opts) target tolerance = Some opt ->
  In opt opts /\ Qabs (Option.strike opt - target) <= tolerance.
Proof.
  intros Htol. unfold _find_strike.
  destruct (dict_get (by_strike opts) target) as [v|] eqn:G.
  - intro H. inversion H; subst v.
    destruct (dict_get_entry _ _ _ G) as (k' & Hin & Hk).
    destruct (by_strike_entries opts _ _ Hin) as [Hs Hp].
    split; [exact Hp|].
    assert (E : Option.strike opt - target == 0) by lra.
    rewrite E. exact Htol.
  - destruct (find _ (by_strike opts)) as [[k v]|] eqn:F; [|discriminate].
    intro H. inversion H; subst v.
    apply find_some in F. destruct F as [Hin Hle]. cbn [fst] in Hle. qprop.
    destruct (by_strike_entries opts _ _ Hin) as [Hs Hp].
    split; [exact Hp|]. rewrite <- Hs. exact Hle.
Qed.

(** What [_find_strike] returns on the index of a list of contracts is one of
    those contracts, and its strike is within the tolerance of the target. *)
Theorem find_strike_within_tolerance (opts : list Option.t)
    (target tolerance : Q) (opt : Option.t) :
  0 <= tolerance ->
  _find_strike (by_strike opts) target tolerance = Some opt ->
  In opt opts /\ Qabs (Option.strike opt - target) <= tolerance.
Proof.
  exact (find_strike_sound opts target tolerance opt).
Qed.

Lemma find_strike_within_tolerance_witness :
  In Fixture.put_540_0 [Fixture.put_540_0; Fixture.put_540_5; Fixture.short_put]
  /\ Qabs (Option.strike Fixture.put_540_0 - 540.3) <= 0.5.
Proof.
  apply find_strike_within_tolerance.
  - vm_compute. congruence.
  - vm_compute. reflexivity.
Defined.

Lemma find_strike_none_witness :
  _find_strike (by_strike [Fixture.short_put]) 540 0.5 = None.
Proof.
  apply (find_strike_none (by_strike [Fixture.short_put]) 540 0.5).
  - vm_compute. congruence.
  - intros k v [H|[]]. inversion H; subst. vm_compute. reflexivity.
Defined.

Lemma group_add_perm (by_exp : list (Z * list Option.t)) (opt : Option.t) :
  Permutation (flat_map snd (group_add by_exp opt))
    (flat_map snd by_exp ++ [opt]).
Proof.
  induction by_exp as [|[k v] d IH]; simpl; [reflexivity|].
  destruct (k =? Option.expiration opt)%Z; simpl.
  - rewrite <- !app_assoc. apply Permutation_app_head.
    apply Permutation_app_comm.
  - rewrite <- app_assoc. apply Permutation_app_head. exact IH.
Qed.

Lemma group_add_keys (by_exp : list (Z * list Option.t)) (opt : Option.t) :
  NoDup (map fst by_exp) ->
  NoDup (map fst (group_add by_exp opt))
  /\ forall k, In k (map fst (group_add by_exp opt))
               <-> In k (map fst by_exp) \/ k = Option.expiration opt.
Proof.
  induction by_exp as [|[k0 v0] d IH]; intro Hnd.
  - simpl. split; [repeat constructor; intros []|]. intro k. intuition congruence.
  - simpl. destruct (k0 =? Option.expiration opt)%Z eqn:E; simpl.
    + apply Z.eqb_eq in E. split; [exact Hnd|]. intro k. intuition congruence.
    + apply Z.eqb_neq in E. inversion Hnd as [|? ? Hn Hd]; subst.
      destruct (IH Hd) as [IH1 IH2]. split.
      * constructor; [|exact IH1]. intro Hin. apply IH2 in Hin.
        destruct Hin as [Hin|Hin]; [contradiction | congruence].
      * intro k. rewrite IH2. intuition congruence.
Qed.

Lemma group_add_members (by_exp : list (Z * list Option.t)) (opt : Option.t) :
  Forall (fun g => snd g <> []
                   /\ Forall (fun o => Option.expiration o = fst g) (snd g)) by_exp ->
  Forall (fun g => snd g <> []
                   /\ Forall (fun o => Option.expiration o = fst g) (snd g))
    (group_add by_exp opt).
Proof.
  induction 1 as [|[k v] d [Hne Hg] Hd IH]; simpl.
  - constructor; [|constructor]. simpl. split; [discriminate|].
    constructor; [reflexivity | constructor].
  - destruct (k =? Option.expiration opt)%Z eqn:E.
    + apply Z.eqb_eq in E. constructor; [|exact Hd]. simpl in *. split.
      * intro H. apply app_eq_nil in H. destruct H. discriminate.
      * apply Forall_app. split; [exact Hg|]. constructor; [congruence | constructor].
    + constructor; [split; assumption | exact IH].
Qed.

Lemma group_by_expiration_facts (options : list Option.t) :
  let groups := _group_by_expiration options in
  Permutation (flat_map snd groups) options
  /\ NoDup (map fst groups)
  /\ Forall (fun g => snd g <> []
                      /\ Forall (fun o => Option.expiration o = fst g) (snd g))
       groups.
Proof.
  unfold _group_by_expiration.
  assert (G : forall (l : list Option.t) (d : list (Z * list Option.t)),
            NoDup (map fst d) ->
            Forall (fun g => snd g <> []
                     /\ Forall (fun o => Option.expiration o = fst g) (snd g)) d ->
            Permutation (flat_map snd (fold_left group_add l d))
              (flat_map snd d ++ l)
            /\ NoDup (map fst (fold_left group_add l d))
            /\ Forall (fun g => snd g <> []
                        /\ Forall (fun o => Option.expiration o = fst g) (snd g))
                 (fold_left group_add l d)).
  { induction l as [|o l IH]; intros d Hnd Hd.
    - simpl. rewrite app_nil_r. auto.
    - cbn [fold_left].
      destruct (IH (group_add d o)) as (P & N & F).
      + apply group_add_keys. exact Hnd.
      + apply group_add_members. exact Hd.
      + split; [|split; assumption].
        rewrite P. rewrite (group_add_perm d o). rewrite <- app_assoc.
        reflexivity. }
  destruct (G options [] (NoDup_nil _) (Forall_nil _)) as (P & N & F).
  simpl in P. auto.
Qed.

(** [_group_by_expiration] loses and duplicates no contract: the groups,
    joined, are a permutation of the input.  The expiration dates of the
    groups are pairwise distinct, no group is empty, and every contract of a
    group expires on the date of the group. *)
Theorem group_by_expiration_partition (options : list Option.t) :
  let groups := _group_by_expiration options in
  Permutation (flat_map snd groups) options
  /\ NoDup (map fst groups)
  /\ Forall (fun g => snd g <> []
                      /\ Forall (fun o => Option.expiration o = fst g) (snd g))
       groups.
Proof.
  exact (group_by_expiration_facts options).
Qed.

(* ================================================================== *)
(** * What the candidate generator emits *)

Lemma OptionType_eqb_eq (a b : OptionType) : OptionType_eqb a b = true -> a = b.
Proof. destruct a, b; simpl; congruence. Qed.

Lemma validated_legs (ic : IronCondor.t) :
  IronCondor.validated ic ->
  Forall (fun leg => Option.ticker leg = IronCondor.ticker ic
                     /\ Option.expiration leg = IronCondor.expiration ic)
    (IronCondor.legs ic)
  /\ Option.option_type (IronCondor.short_put ic) = put
  /\ Option.option_type (IronCondor.long_put ic) = put
  /\ Option.option_type (IronCondor.short_call ic) = call
  /\ Option.option_type (IronCondor.long_call ic) = call.
Proof.
  unfold IronCondor.validated, IronCondor.post_init.
  repeat match goal with
  | |- context [if ?b then Raise _ else _] => destruct b eqn:?; [discriminate|]
  end.
  intros _.
  repeat match goal with
  | H : (_ || _) = false |- _ => apply orb_false_iff in H; destruct H
  | H : negb _ = false |- _ => apply negb_false_iff in H
  end.
  split.
  - apply Forall_forall. intros leg Hin. split.
    + apply String.eqb_eq.
      match goal with
      | H : forallb (fun leg => String.eqb _ _) _ = true |- _ =>
          rewrite forallb_forall in H; apply H; exact Hin
      end.
    + apply Z.eqb_eq.
      match goal with
      | H : forallb (fun leg => Z.eqb _ _) _ = true |- _ =>
          rewrite forallb_forall in H; apply H; exact Hin
      end.
  - repeat split; apply OptionType_eqb_eq; assumption.
Qed.

(** Everything known of a condor yielded for one expiration. *)
Lemma generate_for_expiration_inv (options : list Option.t) (expiration : Z)
    (config : StrategyConfig.t) (ic : IronCondor.t) :
  In ic (_generate_condors_for_expiration options expiration config) ->
  IronCondor.validated ic
  /\ IronCondor.expiration ic = expiration
  /\ Forall (fun leg => In leg options) (IronCondor.legs ic)
  /\ (- StrategyConfig.max_delta config <= Option.delta (IronCondor.short_put ic)
      /\ Option.delta (IronCondor.short_put ic) <= - StrategyConfig.min_delta config)
  /\ (StrategyConfig.min_delta config <= Option.delta (IronCondor.short_call ic)
      /\ Option.delta (IronCondor.short_call ic) <= StrategyConfig.max_delta config)
  /\ Qabs (Option.strike (IronCondor.long_put ic)
           - (Option.strike (IronCondor.short_put ic)
              - StrategyConfig.wing_width_put config)) <= 0.5
  /\ Qabs (Option.strike (IronCondor.long_call ic)
           - (Option.strike (IronCondor.short_call ic)
              + StrategyConfig.wing_width_call config)) <= 0.5.
Proof.
  unfold _generate_condors_for_expiration.
  destruct (_ || _); [intros []|].
  intro H. apply in_flat_map in H. destruct H as (sp & Hsp & H).
  destruct (_find_strike _ _ _) as [lp|] eqn:Flp; [|simpl in H; contradiction].
  apply in_flat_map in H. destruct H as (sc & Hsc & H).
  destruct (_find_strike _ (Option.strike sc + _) _) as [lc|] eqn:Flc;
    [|simpl in H; contradiction].
  unfold IronCondor.new in H.
  destruct (IronCondor.post_init _) as [[]|e] eqn:V; simpl in H; [|destruct H].
  destruct (_is_valid_condor _) eqn:E; [|destruct H].
  destruct H as [H|[]]. subst ic. cbn [IronCondor.expiration IronCondor.legs
    IronCondor.short_put IronCondor.long_put IronCondor.short_call
    IronCondor.long_call].
  apply filter_In in Hsp. destruct Hsp as [Hsp Dsp].
  apply filter_In in Hsp. destruct Hsp as [Hsp _].
  apply filter_In in Hsc. destruct Hsc as [Hsc Dsc].
  apply filter_In in Hsc. destruct Hsc as [Hsc _].
  assert (T : 0 <= 0.5) by (vm_compute; congruence).
  destruct (find_strike_sound _ _ _ _ T Flp) as [Hlp Wlp].
  destruct (find_strike_sound _ _ _ _ T Flc) as [Hlc Wlc].
  apply filter_In in Hlp. destruct Hlp as [Hlp _].
  apply filter_In in Hlc. destruct Hlc as [Hlc _].
  qprop.
  split; [exact V|]. split; [reflexivity|].
  split; [repeat constructor; assumption|].
  repeat split; assumption.
Qed.

(** Everything known of a condor the generator yields. *)
Lemma generate_inv (today : Z) (options : list Option.t)
    (config : StrategyConfig.t) (ic : IronCondor.t) :
  In ic (generate_iron_condors today options config) ->
  exists pool,
    incl pool options
    /\ Forall (fun opt =>
                 (StrategyConfig.min_dte config <= Option.dte today opt
                  <= StrategyConfig.max_dte config)%Z) pool
    /\ In ic (_generate_condors_for_expiration pool (IronCondor.expiration ic)
                config).
Proof.
  unfold generate_iron_condors.
  set (valid := filter _ options).
  destruct (is_empty valid); [intros []|].
  intro H. apply in_flat_map in H. destruct H as ([k pool] & Hg & H).
  cbn [fst snd] in H.
  destruct (group_by_expiration_facts valid) as (P & _ & _).
  assert (Hpool : incl pool valid).
  { intros o Ho. apply (Permutation_in _ P). apply in_flat_map.
    exists (k, pool). split; [exact Hg | exact Ho]. }
  exists pool.
  pose proof (generate_for_expiration_inv _ _ _ _ H) as (_ & Ek & _).
  rewrite Ek. split; [|split; [|exact H]].
  - intros o Ho. apply Hpool in Ho. apply filter_In in Ho. tauto.
  - apply Forall_forall. intros o Ho. apply Hpool in Ho.
    apply filter_In in Ho. destruct Ho as [_ Ho].
    apply andb_true_iff in Ho. destruct Ho as [H1 H2].
    apply Z.leb_le in H1. apply Z.leb_le in H2. split; assumption.
Qed.

(** The four legs of every emitted condor are contracts of the input pool
    whose days to expiration lie in the configured window. *)
Theorem generated_legs_from_pool :
  forall (today : Z) (options : list Option.t) (config : StrategyConfig.t)
         (ic : IronCondor.t),
    In ic (generate_iron_condors today options config) ->
    Forall (fun leg =>
              In leg options
              /\ (StrategyConfig.min_dte config <= Option.dte today leg
                  <= StrategyConfig.max_dte config)%Z)
      (IronCondor.legs ic).
Proof.
  intros today options config ic H.
  destruct (generate_inv today options config ic H) as (pool & Hi & Hd & Hg).
  destruct (generate_for_expiration_inv _ _ _ _ Hg) as (_ & _ & Hl & _).
  rewrite Forall_forall in *. intros leg Hleg. split.
  - apply Hi. apply Hl. exact Hleg.
  - apply Hd. apply Hl. exact Hleg.
Qed.

Lemma generated_sample :
  In Fixture.sample_iron_condor
    (generate_iron_condors Fixture.entry Fixture.chain StrategyConfig.default).
Proof. vm_compute. left. reflexivity. Qed.

Lemma generated_legs_from_pool_witness :
  Forall (fun leg =>
            In leg Fixture.chain
            /\ (30 <= Option.dte Fixture.entry leg <= 45)%Z)
    (IronCondor.legs Fixture.sample_iron_condor).
Proof.
  exact (generated_legs_from_pool Fixture.entry Fixture.chain
           StrategyConfig.default Fixture.sample_iron_condor generated_sample).
Defined.

(** Every emitted condor was accepted by the constructor: its legs share its
    ticker and expiration, the put side holds puts and the call side calls,
    and the strikes are ordered long put < short put < short call < long
    call. *)
Theorem generated_structure :
  forall (today : Z) (options : list Option.t) (config : StrategyConfig.t)
         (ic : IronCondor.t),
    In ic (generate_iron_condors today options config) ->
    Forall (fun leg => Option.ticker leg = IronCondor.ticker ic
                       /\ Option.expiration leg = IronCondor.expiration ic)
      (IronCondor.legs ic)
    /\ Option.option_type (IronCondor.short_put ic) = put
    /\ Option.option_type (IronCondor.long_put ic) = put
    /\ Option.option_type (IronCondor.short_call ic) = call
    /\ Option.option_type (IronCondor.long_call ic) = call
    /\ Option.strike (IronCondor.long_put ic) < Option.strike (IronCondor.short_put ic)
    /\ Option.strike (IronCondor.short_put ic) < Option.strike (IronCondor.short_call ic)
    /\ Option.strike (IronCondor.short_call ic) < Option.strike (IronCondor.long_call ic).
Proof.
  intros today options config ic H.
  destruct (generate_inv today options config ic H) as (pool & _ & _ & Hg).
  destruct (generate_for_expiration_inv _ _ _ _ Hg) as (V & _).
  destruct (validated_legs ic V) as (L & T1 & T2 & T3 & T4).
  destruct (validated_strikes ic V) as (S1 & S2 & S3).
  repeat split; assumption.
Qed.

Lemma generated_structure_witness :
  Option.strike (IronCondor.long_put Fixture.sample_iron_condor)
  < Option.strike (IronCondor.short_put Fixture.sample_iron_condor).
Proof.
  exact (proj1 (proj2 (proj2 (proj2 (proj2 (proj2
           (generated_structure Fixture.entry Fixture.chain
              StrategyConfig.default Fixture.sample_iron_condor
              generated_sample))))))).
Defined.

(** The short put delta of every emitted condor lies in
    [[-max_delta, -min_delta]] and the short call delta in
    [[min_delta, max_delta]]. *)
Theorem generated_short_deltas :
  forall (today : Z) (options : list Option.t) (config : StrategyConfig.t)
         (ic : IronCondor.t),
    In ic (generate_iron_condors today options config) ->
    - StrategyConfig.max_delta config <= Option.delta (IronCondor.short_put ic)
    /\ Option.delta (IronCondor.short_put ic) <= - StrategyConfig.min_delta config
    /\ StrategyConfig.min_delta config <= Option.delta (IronCondor.short_call ic)
    /\ Option.delta (IronCondor.short_call ic) <= StrategyConfig.max_delta config.
Proof.
  intros today options config ic H.
  destruct (generate_inv today options config ic H) as (pool & _ & _ & Hg).
  destruct (generate_for_expiration_inv _ _ _ _ Hg)
    as (_ & _ & _ & [D1 D2] & [D3 D4] & _).
  repeat split; assumption.
Qed.

Lemma generated_short_deltas_witness :
  - 0.25 <= Option.delta (IronCondor.short_put Fixture.sample_iron_condor)
  /\ Option.delta (IronCondor.short_put Fixture.sample_iron_condor) <= - 0.15
  /\ 0.15 <= Option.delta (IronCondor.short_call Fixture.sample_iron_condor)
  /\ Option.delta (IronCondor.short_call Fixture.sample_iron_condor) <= 0.25.
Proof.
  exact (generated_short_deltas Fixture.entry Fixture.chain
           StrategyConfig.default Fixture.sample_iron_condor generated_sample).
Defined.

(** Each wing of every emitted condor is within 0.5 of the configured wing
    width; with equal configured widths the two wings differ by at most 1. *)
Theorem generated_wing_widths :
  forall (today : Z) (options : list Option.t) (config : StrategyConfig.t)
         (ic : IronCondor.t),
    In ic (generate_iron_condors today options config) ->
    Qabs (IronCondor.put_side_width ic - StrategyConfig.wing_width_put config) <= 0.5
    /\ Qabs (IronCondor.call_side_width ic - StrategyConfig.wing_width_call config) <= 0.5
    /\ (StrategyConfig.wing_width_put config == StrategyConfig.wing_width_call config ->
        Qabs (IronCondor.put_side_width ic - IronCondor.call_side_width ic) <= 1).
Proof.
  intros today options config ic H.
  destruct (generate_inv today options config ic H) as (pool & _ & _ & Hg).
  destruct (generate_for_expiration_inv _ _ _ _ Hg)
    as (_ & _ & _ & _ & _ & W1 & W2).
  unfold IronCondor.put_side_width, IronCondor.call_side_width.
  apply Qabs_Qle_condition in W1, W2.
  destruct W1 as [W1 W1']. destruct W2 as [W2 W2'].
  split; [|split; [|intro E]]; apply Qabs_Qle_condition; split; lra.
Qed.

Lemma generated_wing_widths_witness :
  Qabs (IronCondor.put_side_width Fixture.sample_iron_condor
        - IronCondor.call_side_width Fixture.sample_iron_condor) <= 1.
Proof.
  apply (generated_wing_widths Fixture.entry Fixture.chain
           StrategyConfig.default Fixture.sample_iron_condor generated_sample).
  reflexivity.
Defined.

Lemma flat_map_nil {A B : Type} (f : A -> list B) (l : list A) :
  (forall x, In x l -> f x = []) -> flat_map f l = [].
Proof.
  induction l as [|x l IH]; intro H; [reflexivity|].
  simpl. rewrite (H x (or_introl eq_refl)). apply IH.
  intros y Hy. apply H. right. exact Hy.
Qed.

Lemma filter_nil {A : Type} (f : A -> bool) (l : list A) :
  (forall x, In x l -> f x = false) -> filter f l = [].
Proof.
  induction l as [|x l IH]; intro H; [reflexivity|].
  simpl. rewrite (H x (or_introl eq_refl)). apply IH.
  intros y Hy. apply H. right. exact Hy.
Qed.

(** A pool whose contracts inside the DTE window are all of one type, puts
    only or calls only, yields no condor at all. *)
Theorem one_sided_pool_yields_nothing :
  forall (today : Z) (options : list Option.t) (config : StrategyConfig.t)
         (ty : OptionType),
    (forall opt, In opt options ->
       (StrategyConfig.min_dte config <= Option.dte today opt
        <= StrategyConfig.max_dte config)%Z ->
       Option.option_type opt = ty) ->
    generate_iron_condors today options config = [].
Proof.
  intros today options config ty Hty. unfold generate_iron_condors.
  set (valid := filter _ options).
  destruct (is_empty valid); [reflexivity|].
  apply flat_map_nil. intros [k pool] Hg. cbn [fst snd].
  destruct (group_by_expiration_facts valid) as (P & _ & _).
  assert (Hpool : forall o, In o pool -> Option.option_type o = ty).
  { intros o Ho.
    assert (Hv : In o valid).
    { apply (Permutation_in _ P). apply in_flat_map.
      exists (k, pool). split; [exact Hg | exact Ho]. }
    apply filter_In in Hv. destruct Hv as [Hin Hw].
    apply andb_true_iff in Hw. destruct Hw as [H1 H2].
    apply Z.leb_le in H1. apply Z.leb_le in H2. apply Hty; [exact Hin | lia]. }
  unfold _generate_condors_for_expiration.
  destruct ty.
  - rewrite (filter_nil (fun opt => OptionType_eqb (Option.option_type opt) put)).
    + reflexivity.
    + intros o Ho. rewrite (Hpool o Ho). reflexivity.
  - rewrite (filter_nil (fun opt => OptionType_eqb (Option.option_type opt) call)).
    + simpl. rewrite orb_true_r. reflexivity.
    + intros o Ho. rewrite (Hpool o Ho). reflexivity.
Qed.

Lemma one_sided_pool_yields_nothing_witness :
  generate_iron_condors Fixture.entry [Fixture.long_put; Fixture.short_put]
    StrategyConfig.default = [].
Proof.
  apply (one_sided_pool_yields_nothing Fixture.entry
           [Fixture.long_put; Fixture.short_put] StrategyConfig.default put).
  intros opt [H|[H|[]]] _; subst opt; reflexivity.
Defined.

(* ================================================================== *)
(** * The outcome of a simulation *)

Section SimulationFacts.

Variable today : Z.
Variable fromisoformat : string -> option Z.
Variable ic : IronCondor.t.
Variable entry : Z.
Variable exit_rule : ExitRule.

(** The record [simulate_iron_condor] builds from the state its loop ends
    in. *)
Lemma simulate_record (earnings_date : option string) (path : list (Z * Q))
    (d : Z) (reason : ExitReason) (cost : Q) :
  walk today fromisoformat ic entry exit_rule earnings_date path
  = Ok (d, reason, cost) ->
  let cost' :=
    match reason with
    | expiration => _calculate_expiration_value ic (final_price_of path)
    | _ => cost
    end in
  let pnl := IronCondor.net_credit ic - cost' in
  exists ret,
    simulate_iron_condor today fromisoformat ic entry exit_rule path earnings_date
    = Ok (mkBacktestResult ic entry d reason (IronCondor.net_credit ic) cost' pnl
            (IronCondor.max_profit ic) (IronCondor.max_loss ic) ret
            (d - entry) (0 <? pnl) (had_earnings_of fromisoformat ic entry earnings_date))
    /\ (0 < IronCondor.max_loss ic -> ret = pnl / IronCondor.max_loss ic * 100)
    /\ (IronCondor.max_loss ic <= 0 -> ret = 0.0).
Proof.
  intro Hw. unfold simulate_iron_condor. rewrite Hw. cbn [bind]. cbv zeta.
  destruct (0 <? IronCondor.max_loss ic) eqn:E; qprop.
  - rewrite pydiv_ok by lra. cbn [bind]. eexists.
    split; [reflexivity|]. split; [reflexivity | intro; lra].
  - cbn [bind]. eexists. split; [reflexivity|]. split; [intro; lra | reflexivity].
Qed.

(** One pass of the rules never raises; a rule that fires closes on the date
    of the sample, with one of the four early reasons. *)
Lemma exit_rules_total (earnings_date : option string) (dt : Z) (price : Q) :
  exists fired,
    exit_rules today fromisoformat ic exit_rule earnings_date dt price = Ok fired
    /\ match fired with
       | Some (d, reason, cost) =>
           d = dt /\ reason <> expiration
           /\ (reason = earnings ->
               earnings_rule fromisoformat exit_rule earnings_date dt = true)
       | None => True
       end.
Proof.
  unfold exit_rules.
  destruct (earnings_rule _ _ _ dt) eqn:E.
  - eexists. split; [reflexivity|]. repeat split; congruence.
  - destruct (_ <=? _)%Z.
    + eexists. split; [reflexivity|]. repeat split; congruence.
    + destruct (position_value_total today ic price (IronCondor.expiration ic - dt))
        as [v Hv].
      rewrite Hv. cbn [bind]. cbv zeta.
      destruct (_ <=? _).
      * eexists. split; [reflexivity|]. repeat split; congruence.
      * destruct (_ <=? _).
        -- eexists. split; [reflexivity|]. repeat split; congruence.
        -- eexists. split; [reflexivity|]. exact I.
Qed.

(** The loop never raises.  It ends either at expiration, or on a sample of
    the path dated from the entry to the expiration on which a rule fired. *)
Lemma walk_total (earnings_date : option string) (path : list (Z * Q)) :
  exists d reason cost,
    walk today fromisoformat ic entry exit_rule earnings_date path
    = Ok (d, reason, cost)
    /\ (reason = expiration -> d = IronCondor.expiration ic)
    /\ (reason <> expiration ->
        (entry <= d <= IronCondor.expiration ic)%Z
        /\ (exists price, In (d, price) path)
        /\ (reason = earnings ->
            earnings_rule fromisoformat exit_rule earnings_date d = true)).
Proof.
  induction path as [|[dt price] rest IH].
  - simpl. do 3 eexists. split; [reflexivity|].
    split; [reflexivity | congruence].
  - cbn [walk].
    destruct (dt <? entry)%Z eqn:E1.
    { destruct IH as (d & reason & cost & Hw & H1 & H2).
      exists d, reason, cost. split; [exact Hw|]. split; [exact H1|].
      intro Hr. destruct (H2 Hr) as (Hd & [p Hp] & He).
      split; [exact Hd|]. split; [exists p; right; exact Hp | exact He]. }
    destruct (IronCondor.expiration ic <? dt)%Z eqn:E2.
    { do 3 eexists. split; [reflexivity|]. split; [reflexivity | congruence]. }
    apply Z.ltb_ge in E1. apply Z.ltb_ge in E2.
    destruct (exit_rules_total earnings_date dt price) as (fired & Hf & Hs).
    rewrite Hf. cbn [bind].
    destruct fired as [[[d reason] cost]|].
    + destruct Hs as (Hd & Hr & He). subst d.
      exists dt, reason, cost. split; [reflexivity|].
      split; [intro; contradiction|]. intros _.
      split; [lia|]. split; [exists price; left; reflexivity | exact He].
    + destruct IH as (d & reason & cost & Hw & H1 & H2).
      exists d, reason, cost. split; [exact Hw|]. split; [exact H1|].
      intro Hr. destruct (H2 Hr) as (Hd & [p Hp] & He).
      split; [exact Hd|]. split; [exists p; right; exact Hp | exact He].
Qed.

(** The simulator never raises, whatever the spread, the rule, the path and
    the earnings date.  An early exit is dated on a sample of the path from
    the entry date to the expiration, so its holding period is not negative;
    an exit at expiration is dated at the expiration. *)
Theorem simulate_exit_date_in_range :
  forall (earnings_date : option string) (path : list (Z * Q)),
  exists r,
    simulate_iron_condor today fromisoformat ic entry exit_rule path earnings_date
    = Ok r
    /\ days_held r = (exit_date r - entry)%Z
    /\ (exit_reason r = expiration -> exit_date r = IronCondor.expiration ic)
    /\ (exit_reason r <> expiration ->
        (entry <= exit_date r <= IronCondor.expiration ic)%Z
        /\ (0 <= days_held r)%Z
        /\ exists price, In (exit_date r, price) path).
Proof.
  intros ed path.
  destruct (walk_total ed path) as (d & reason & cost & Hw & H1 & H2).
  destruct (simulate_record ed path d reason cost Hw) as (ret & Hs & _).
  eexists. split; [exact Hs|]. cbn.
  split; [reflexivity|]. split; [exact H1|].
  intro Hr. destruct (H2 Hr) as (Hd & Hp & _).
  split; [exact Hd|]. split; [lia | exact Hp].
Qed.

(** The fields of an outcome agree with one another: the realized P&L is the
    credit less the exit cost, the trade is a winner exactly when the realized
    P&L is positive, and the return is 0.0 when the maximum loss is not
    positive and otherwise has the sign of the realized P&L. *)
Theorem simulate_outcome_consistent :
  forall (earnings_date : option string) (path : list (Z * Q)),
  exists r,
    simulate_iron_condor today fromisoformat ic entry exit_rule path earnings_date
    = Ok r
    /\ entry_credit r = IronCondor.net_credit ic
    /\ realized_pnl r = entry_credit r - exit_cost r
    /\ (is_winner r = true <-> 0 < realized_pnl r)
    /\ (IronCondor.max_loss ic <= 0 -> return_pct r = 0.0)
    /\ (0 < IronCondor.max_loss ic ->
        return_pct r * IronCondor.max_loss ic == 100 * realized_pnl r
        /\ (is_winner r = true <-> 0 < return_pct r)).
Proof.
  intros ed path.
  destruct (walk_total ed path) as (d & reason & cost & Hw & _).
  destruct (simulate_record ed path d reason cost Hw) as (ret & Hs & R1 & R2).
  eexists. split; [exact Hs|]. cbn.
  split; [reflexivity|]. split; [reflexivity|].
  split; [apply Qltb_true|]. split; [exact R2|].
  intro Hml. rewrite (R1 Hml).
  set (pnl := IronCondor.net_credit ic - _).
  split; [field; lra|].
  rewrite Qltb_true. split; intro H.
  - apply Qmult_lt_0_compat; [|lra]. apply Qlt_shift_div_l; lra.
  - destruct (Qlt_le_dec 0 pnl) as [L|L]; [exact L|]. exfalso.
    assert (pnl / IronCondor.max_loss ic <= 0).
    { apply Qle_shift_div_r; lra. }
    lra.
Qed.

(** The earnings-in-window flag depends on the dates alone: it is set exactly
    when the earnings date parses and lies from the entry date to the
    expiration, whatever the path and whichever rule closed the position. *)
Theorem had_earnings_flag :
  forall (earnings_date : option string) (path : list (Z * Q)),
  exists r,
    simulate_iron_condor today fromisoformat ic entry exit_rule path earnings_date
    = Ok r
    /\ (had_earnings r = true <->
        exists earnings_dt,
          parsed_earnings fromisoformat earnings_date = Some earnings_dt
          /\ (entry <= earnings_dt <= IronCondor.expiration ic)%Z).
Proof.
  intros ed path.
  destruct (walk_total ed path) as (d & reason & cost & Hw & _).
  destruct (simulate_record ed path d reason cost Hw) as (ret & Hs & _).
  eexists. split; [exact Hs|]. cbn.
  unfold had_earnings_of, parsed_earnings.
  destruct ed as [s|]; [|split; [discriminate | intros (e & He & _); discriminate]].
  destruct (truthy (Some s)); cbn [andb];
    [|split; [discriminate | intros (e & He & _); discriminate]].
  destruct (fromisoformat s) as [e|];
    [|split; [discriminate | intros (e & He & _); discriminate]].
  rewrite andb_true_iff, !Z.leb_le. split.
  - intro H. exists e. split; [reflexivity | exact H].
  - intros (e' & He & H). inversion He; subst. exact H.
Qed.

(** The earnings exit is never taken when the close-before-earnings window is
    not positive, nor when no earnings date is given or the one given does
    not parse. *)
Theorem no_earnings_exit_when_disabled :
  forall (earnings_date : option string) (path : list (Z * Q)),
    (close_before_earnings_days exit_rule <= 0)%Z
    \/ parsed_earnings fromisoformat earnings_date = None ->
    exists r,
      simulate_iron_condor today fromisoformat ic entry exit_rule path
        earnings_date = Ok r
      /\ exit_reason r <> earnings.
Proof.
  intros ed path Hoff.
  destruct (walk_total ed path) as (d & reason & cost & Hw & _ & H2).
  destruct (simulate_record ed path d reason cost Hw) as (ret & Hs & _).
  eexists. split; [exact Hs|]. cbn. intro Hr.
  assert (Hne : reason <> expiration) by (rewrite Hr; discriminate).
  destruct (H2 Hne) as (_ & _ & He). specialize (He Hr).
  destruct (proj1 (earnings_rule_due today fromisoformat ic entry exit_rule ed d) He)
    as (Hpos & e & Hp & _).
  destruct Hoff as [Hoff|Hoff]; [lia | congruence].
Qed.

(** An earnings date that does not parse, or is empty, is the same as no
    earnings date: the outcome is the one computed without it. *)
Theorem unparsed_earnings_date_ignored :
  forall (earnings_date : option string) (path : list (Z * Q)),
    parsed_earnings fromisoformat earnings_date = None ->
    simulate_iron_condor today fromisoformat ic entry exit_rule path earnings_date
    = simulate_iron_condor today fromisoformat ic entry exit_rule path None.
Proof.
  intros ed path Hp.
  assert (Hrule : forall dt,
            earnings_rule fromisoformat exit_rule ed dt
            = earnings_rule fromisoformat exit_rule None dt).
  { intro dt. unfold earnings_rule, parsed_earnings in *.
    destruct ed as [s|]; [|reflexivity].
    destruct (truthy (Some s)); cbn [andb]; [|reflexivity].
    rewrite Hp. simpl. destruct (0 <? _)%Z; reflexivity. }
  assert (Hwalk : walk today fromisoformat ic entry exit_rule ed path
                  = walk today fromisoformat ic entry exit_rule None path).
  { induction path as [|[dt price] rest IH]; [reflexivity|].
    cbn [walk]. rewrite IH. unfold exit_rules. rewrite Hrule. reflexivity. }
  unfold simulate_iron_condor. rewrite Hwalk.
  assert (Hflag : truthy ed &&
            match ed with
            | Some s =>
                match fromisoformat s with
                | Some earnings_dt =>
                    (entry <=? earnings_dt)%Z
                    && (earnings_dt <=? IronCondor.expiration ic)%Z
                | None => false
                end
            | None => false
            end = false).
  { unfold parsed_earnings in Hp. destruct ed as [s|]; [|reflexivity].
    destruct (truthy (Some s)); cbn [andb]; [|reflexivity].
    rewrite Hp. reflexivity. }
  cbv zeta. rewrite Hflag. reflexivity.
Qed.

End SimulationFacts.

Lemma simulate_exit_date_in_range_witness :
  exists r,
    simulate_iron_condor Fixture.entry Fixture.one_date Fixture.sample_iron_condor
      Fixture.entry default_ExitRule [(Fixture.exp, 560)] None = Ok r
    /\ (0 <= days_held r)%Z.
Proof.
  destruct (simulate_exit_date_in_range Fixture.entry Fixture.one_date
              Fixture.sample_iron_condor Fixture.entry default_ExitRule None
              [(Fixture.exp, 560)]) as (r & Hs & _ & _ & Hearly).
  exists r. split; [exact Hs|].
  apply Hearly. vm_compute in Hs. inversion Hs; subst r. discriminate.
Defined.

Lemma simulate_outcome_consistent_witness :
  exists r,
    simulate_iron_condor Fixture.entry Fixture.one_date Fixture.sample_iron_condor
      Fixture.entry default_ExitRule [(Fixture.exp, 560)] None = Ok r
    /\ (is_winner r = true <-> 0 < return_pct r).
Proof.
  destruct (simulate_outcome_consistent Fixture.entry Fixture.one_date
              Fixture.sample_iron_condor Fixture.entry default_ExitRule None
              [(Fixture.exp, 560)]) as (r & Hs & _ & _ & _ & _ & Hpos).
  exists r. split; [exact Hs|]. apply Hpos. reflexivity.
Defined.

Lemma no_earnings_exit_when_disabled_witness :
  exists r,
    simulate_iron_condor Fixture.entry Fixture.one_date Fixture.sample_iron_condor
      Fixture.entry default_ExitRule [(Fixture.exp, 560)]
      (Some "not a date"%string) = Ok r
    /\ exit_reason r <> earnings.
Proof.
  apply no_earnings_exit_when_disabled. right. reflexivity.
Defined.

Lemma unparsed_earnings_date_ignored_witness :
  simulate_iron_condor Fixture.entry Fixture.one_date Fixture.sample_iron_condor
    Fixture.entry default_ExitRule [(Fixture.exp, 560)] (Some "not a date"%string)
  = simulate_iron_condor Fixture.entry Fixture.one_date Fixture.sample_iron_condor
      Fixture.entry default_ExitRule [(Fixture.exp, 560)] None.
Proof.
  apply unparsed_earnings_date_ignored. reflexivity.
Defined.

(* ================================================================== *)
(** * The valuation models *)

(** Once a short strike is reached the estimated position value is capped at
    the maximum loss, whatever the remaining DTE; it is not negative when the
    maximum loss is not. *)
Theorem position_value_capped :
  forall (today : Z) (ic : IronCondor.t) (price : Q) (dte : Z),
    IronCondor.validated ic ->
    ~ inside_tent ic price ->
    exists v,
      _estimate_position_value today ic price dte = Ok v
      /\ v <= IronCondor.max_loss ic
      /\ (0 <= IronCondor.max_loss ic -> 0 <= v).
Proof.
  intros today ic p dte V Hout.
  pose proof (put_intrinsic_spread_bounds ic p V) as [Bp _].
  pose proof (call_intrinsic_spread_bounds ic p V) as [Bc _].
  unfold put_intrinsic_spread in Bp. unfold call_intrinsic_spread in Bc.
  destruct (validated_strikes ic V) as (H1 & H2 & H3).
  unfold _estimate_position_value, inside_tent in *.
  set (sp := Option.strike (IronCondor.short_put ic)) in *.
  set (sc := Option.strike (IronCondor.short_call ic)) in *.
  set (ml := IronCondor.max_loss ic).
  assert (Hin : (sp <? p) && (p <? sc) = false).
  { destruct (sp <? p) eqn:E1; [|reflexivity].
    destruct (p <? sc) eqn:E2; [|reflexivity].
    qprop. exfalso. apply Hout. split; assumption. }
  rewrite Hin.
  assert (Hmin : forall x, 0 <= x ->
            Qmin (x * 100) ml <= ml /\ (0 <= ml -> 0 <= Qmin (x * 100) ml)).
  { intros x Hx. destruct (Q.min_spec (x * 100) ml) as [[? E]|[? E]];
      rewrite E; split; intros; lra. }
  destruct (p <=? sp) eqn:E1; [|destruct (sc <=? p) eqn:E2]; qprop.
  - eexists. split; [reflexivity|]. apply Hmin. exact Bp.
  - eexists. split; [reflexivity|]. apply Hmin. exact Bc.
  - exfalso. apply andb_false_iff in Hin. destruct Hin as [Hin|Hin]; qprop; lra.
Qed.

Lemma position_value_capped_witness :
  exists v,
    _estimate_position_value Fixture.entry Fixture.sample_iron_condor 530 10 = Ok v
    /\ v <= IronCondor.max_loss Fixture.sample_iron_condor.
Proof.
  destruct (position_value_capped Fixture.entry Fixture.sample_iron_condor 530 10)
    as (v & Hv & Hcap & _).
  - reflexivity.
  - intros [H _]. vm_compute in H. discriminate.
  - exists v. split; assumption.
Defined.

(** Between the short strikes, on a valuation day from today to the
    expiration and for a credit that is not negative, the estimated position
    value lies between 0 and 30% of the maximum profit. *)
Lemma position_value_inside (today : Z) (ic : IronCondor.t) (price : Q) (dt : Z) :
  IronCondor.validated ic ->
  0 <= IronCondor.net_credit ic ->
  (today <= dt <= IronCondor.expiration ic)%Z ->
  inside_tent ic price ->
  exists v,
    _estimate_position_value today ic price (IronCondor.expiration ic - dt) = Ok v
    /\ 0 <= v /\ v <= IronCondor.max_profit ic * 0.3.
Proof.
  intros V Hc [Ht He] [I1 I2].
  destruct (validated_legs ic V) as (L & _).
  inversion L as [|? ? [_ Hexp] _]; subst.
  unfold _estimate_position_value.
  apply Qltb_true in I1. apply Qltb_true in I2. rewrite I1, I2. cbn [andb].
  unfold Option.dte. rewrite Hexp.
  set (dte := (IronCondor.expiration ic - dt)%Z).
  set (ini := Z.max (IronCondor.expiration ic - today) 1).
  assert (Hd : (0 <= dte <= ini)%Z) by (unfold dte, ini; lia).
  assert (Hi : (1 <= ini)%Z) by (unfold ini; lia).
  assert (Qi : 0 < inject_Z ini) by (unfold Qlt; simpl; lia).
  assert (Qd0 : 0 <= inject_Z dte) by (unfold Qle; simpl; lia).
  assert (Qd1 : inject_Z dte <= inject_Z ini) by (rewrite <- Zle_Qle; lia).
  rewrite pydiv_ok by lra. cbn [bind]. eexists. split; [reflexivity|].
  unfold IronCondor.max_profit.
  set (tf := inject_Z dte / inject_Z ini).
  assert (T0 : 0 <= tf) by (apply Qle_shift_div_l; lra).
  assert (T1 : tf <= 1) by (apply Qle_shift_div_r; lra).
  split; nra.
Qed.

(** Beyond the long strike of the breached side the expiration value no
    longer moves: it is 100 times the wing width of that side. *)
Theorem expiration_value_full_breach :
  forall (ic : IronCondor.t) (final_price : Q),
    IronCondor.validated ic ->
    (final_price <= Option.strike (IronCondor.long_put ic) ->
     _calculate_expiration_value ic final_price
     == 100 * IronCondor.put_side_width ic)
    /\ (Option.strike (IronCondor.long_call ic) <= final_price ->
        _calculate_expiration_value ic final_price
        == 100 * IronCondor.call_side_width ic).
Proof.
  intros ic p V. destruct (validated_strikes ic V) as (H1 & H2 & H3).
  unfold _calculate_expiration_value, IronCondor.put_side_width,
    IronCondor.call_side_width.
  set (sp := Option.strike (IronCondor.short_put ic)) in *.
  set (sc := Option.strike (IronCondor.short_call ic)) in *.
  set (lp := Option.strike (IronCondor.long_put ic)) in *.
  set (lc := Option.strike (IronCondor.long_call ic)) in *.
  split; intro Hp.
  - assert (E1 : (sp <? p) = false) by (apply Qltb_false; lra).
    assert (E2 : (p <=? sp) = true) by (apply Qle_bool_iff; lra).
    rewrite E1, E2. cbn [andb].
    rewrite (Qmax_nonneg (sp - p)), (Qmax_nonneg (lp - p)); lra.
  - assert (E1 : (p <? sc) = false) by (apply Qltb_false; lra).
    assert (E2 : (p <=? sp) = false) by (apply Qleb_false; lra).
    assert (E3 : (sc <=? p) = true) by (apply Qle_bool_iff; lra).
    rewrite E1, E2, E3, andb_false_r.
    rewrite (Qmax_nonneg (p - sc)), (Qmax_nonneg (p - lc)); lra.
Qed.

Lemma expiration_value_full_breach_witness :
  _calculate_expiration_value Fixture.sample_iron_condor 500
  == 100 * IronCondor.put_side_width Fixture.sample_iron_condor.
Proof.
  apply (proj1 (expiration_value_full_breach Fixture.sample_iron_condor 500
                  sample_validated)).
  unfold Qle. simpl. lia.
Defined.

(* ================================================================== *)
(** * Paths through the simulator *)

Lemma last_default_irrelevant {A : Type} (l : list A) (a b : A) :
  l <> [] -> List.last l a = List.last l b.
Proof.
  induction l as [|x l IH]; [congruence|]. intros _.
  destruct l as [|y l]; [reflexivity|].
  change (List.last (y :: l) a = List.last (y :: l) b).
  apply IH. discriminate.
Qed.

Lemma last_cons_default {A : Type} (x : A) (l : list A) (d : A) :
  List.last (x :: l) d = List.last l x.
Proof.
  destruct l as [|y l]; [reflexivity|].
  change (List.last (y :: l) d = List.last (y :: l) x).
  apply last_default_irrelevant. discriminate.
Qed.

Lemma last_append {A : Type} (pre l : list A) (d : A) :
  l <> [] -> List.last (pre ++ l) d = List.last l d.
Proof.
  intro Hne. induction pre as [|x pre IH]; [reflexivity|].
  cbn [app]. destruct (pre ++ l) as [|y t] eqn:E.
  - destruct pre; [simpl in E; congruence | discriminate E].
  - change (List.last (y :: t) d = List.last l d). exact IH.
Qed.

Lemma final_price_app (pre rest : list (Z * Q)) :
  rest <> [] -> final_price_of (pre ++ rest) = final_price_of rest.
Proof.
  intro Hne.
  assert (F : forall l : list (Z * Q), l <> [] ->
            final_price_of l = snd (List.last l (0%Z, 0))).
  { intros [|s l] H; [congruence|]. unfold final_price_of.
    rewrite last_cons_default. reflexivity. }
  rewrite (F rest Hne), F.
  - rewrite (last_append pre rest _ Hne). reflexivity.
  - destruct pre; [exact Hne | discriminate].
Qed.

(** Samples dated before the entry date do not change the outcome, as long as
    the path goes on after them. *)
Theorem samples_before_entry_ignored :
  forall (today : Z) (fromisoformat : string -> option Z) (ic : IronCondor.t)
         (entry : Z) (exit_rule : ExitRule) (earnings_date : option string)
         (before rest : list (Z * Q)),
    Forall (fun s => (fst s < entry)%Z) before ->
    rest <> [] ->
    simulate_iron_condor today fromisoformat ic entry exit_rule (before ++ rest)
      earnings_date
    = simulate_iron_condor today fromisoformat ic entry exit_rule rest
        earnings_date.
Proof.
  intros today fromiso ic entry er ed before rest Hb Hne.
  unfold simulate_iron_condor.
  rewrite (walk_skip today fromiso ic entry er ed before rest).
  - rewrite (final_price_app before rest Hne). reflexivity.
  - apply Forall_impl with (2 := Hb). intros s Hs. left. exact Hs.
Qed.

Lemma samples_before_entry_ignored_witness :
  simulate_iron_condor Fixture.entry Fixture.one_date Fixture.sample_iron_condor
    Fixture.entry default_ExitRule
    ([((Fixture.entry - 1)%Z, 530)] ++ [(Fixture.exp, 560)]) None
  = simulate_iron_condor Fixture.entry Fixture.one_date Fixture.sample_iron_condor
      Fixture.entry default_ExitRule [(Fixture.exp, 560)] None.
Proof.
  apply samples_before_entry_ignored.
  - apply Forall_cons; [simpl; unfold Fixture.entry; lia | apply Forall_nil].
  - discriminate.
Defined.

(** With a credit that is not negative and a profit target of at most 70%,
    the first sample dated from the entry date on, when it is dated no
    earlier than today and no later than the expiration and its price lies
    strictly between the short strikes, closes the position on its date: by
    the earnings, the minimum-DTE or the profit-target rule, never by the stop
    loss, and the outcome keeps at least 70% of the credit. *)
Theorem inside_tent_closes_position :
  forall (today : Z) (fromisoformat : string -> option Z) (ic : IronCondor.t)
         (entry : Z) (exit_rule : ExitRule) (earnings_date : option string)
         (before rest : list (Z * Q)) (dt : Z) (price : Q),
    IronCondor.validated ic ->
    0 <= IronCondor.net_credit ic ->
    profit_target_pct exit_rule <= 0.7 ->
    Forall (fun s => (fst s < entry)%Z) before ->
    in_range ic entry dt ->
    (today <= dt)%Z ->
    inside_tent ic price ->
    exists r,
      simulate_iron_condor today fromisoformat ic entry exit_rule
        (before ++ (dt, price) :: rest) earnings_date = Ok r
      /\ exit_date r = dt
      /\ (exit_reason r = earnings \/ exit_reason r = min_dte
          \/ exit_reason r = profit_target)
      /\ 0.7 * IronCondor.net_credit ic <= realized_pnl r.
Proof.
  intros today fromiso ic entry er ed before rest dt price V Hc Hpt Hb Hr Ht Hin.
  destruct (position_value_inside today ic price dt V Hc) as (v & Hv & V0 & V1);
    [destruct Hr; lia | exact Hin |].
  assert (Hw : exists reason cost,
            walk today fromiso ic entry er ed (before ++ (dt, price) :: rest)
            = Ok (dt, reason, cost)
            /\ (reason = earnings \/ reason = min_dte \/ reason = profit_target)
            /\ cost <= IronCondor.max_profit ic * 0.3).
  { rewrite (walk_skip today fromiso ic entry er ed before).
    2:{ apply Forall_impl with (2 := Hb). intros s Hs. left. exact Hs. }
    destruct Hr as [R1 R2]. cbn [walk].
    assert (E1 : (dt <? entry)%Z = false) by (apply Z.ltb_ge; lia).
    assert (E2 : (IronCondor.expiration ic <? dt)%Z = false)
      by (apply Z.ltb_ge; lia).
    rewrite E1, E2. unfold exit_rules, _estimate_exit_cost.
    unfold IronCondor.max_profit in *.
    destruct (earnings_rule _ _ _ dt).
    { cbn [bind]. do 2 eexists. split; [reflexivity|]. split; [auto|]. lra. }
    destruct (_ <=? _)%Z.
    { cbn [bind]. do 2 eexists. split; [reflexivity|]. split; [auto|]. lra. }
    rewrite Hv. cbn [bind]. cbv zeta.
    assert (P : (IronCondor.net_credit ic * profit_target_pct er
                 <=? IronCondor.net_credit ic - v) = true).
    { apply Qle_bool_iff. nra. }
    rewrite P. cbn [bind]. do 2 eexists. split; [reflexivity|].
    split; [auto | exact V1]. }
  destruct Hw as (reason & cost & Hw & Hreason & Hcost).
  destruct (simulate_of_walk today fromiso ic entry er ed _ _ _ _ Hw)
    as (r & Hs & Hd & Hre & Hco & _ & Hpnl & _).
  exists r. split; [exact Hs|]. split; [exact Hd|].
  split; [rewrite Hre; exact Hreason|].
  rewrite Hpnl, Hco. unfold IronCondor.max_profit in Hcost.
  destruct Hreason as [E|[E|E]]; subst reason; lra.
Qed.

Lemma inside_tent_closes_position_witness :
  exists r,
    simulate_iron_condor Fixture.entry Fixture.one_date Fixture.sample_iron_condor
      Fixture.entry default_ExitRule
      ([] ++ (Fixture.entry, 560) :: [(Fixture.exp, 530)]) None = Ok r
    /\ exit_date r = Fixture.entry
    /\ 0.7 * IronCondor.net_credit Fixture.sample_iron_condor <= realized_pnl r.
Proof.
  destruct (inside_tent_closes_position Fixture.entry Fixture.one_date
              Fixture.sample_iron_condor Fixture.entry default_ExitRule None
              [] [(Fixture.exp, 530)] Fixture.entry 560)
    as (r & Hs & Hd & _ & Hp).
  - reflexivity.
  - vm_compute. congruence.
  - vm_compute. congruence.
  - apply Forall_nil.
  - split; simpl; unfold Fixture.entry, Fixture.exp; lia.
  - lia.
  - split; reflexivity.
  - exists r. repeat split; assumption.
Defined.

(* ================================================================== *)
(** * The fields of a Performance Summary *)







Section SummaryFacts.

Variable sqrt : Q -> Q.

(** The summary of a non-empty collection, field by field. *)
Lemma calculate_metrics_fields (results : list BacktestResult) :
  results <> [] ->
  let returns := map return_pct results in
  let gross_profit := pysum (map realized_pnl (filter is_winner results)) in
  let gross_loss :=
    Qabs (pysum (map realized_pnl
                   (filter (fun r => negb (is_winner r)) results))) in
  exists m,
    calculate_metrics sqrt results = Ok m
    /\ total_trades m = pylen results
    /\ winners m = pylen (filter is_winner results)
    /\ losers m = (total_trades m - winners m)%Z
    /\ win_rate m = inject_Z (winners m) / inject_Z (total_trades m) * 100
    /\ avg_return_pct m = pysum returns / inject_Z (pylen returns)
    /\ best_trade_pct m = max_or_zero returns
    /\ worst_trade_pct m = min_or_zero returns
    /\ (0 < gross_loss -> profit_factor m = gross_profit / gross_loss)
    /\ (gross_loss <= 0 -> profit_factor m = 0.0)
    /\ _calculate_max_drawdown results = Ok (max_drawdown_pct m)
    /\ _calculate_sharpe_ratio sqrt returns 0.0 = Ok (sharpe_ratio m).
Proof.
  intros Hne returns gross_profit gross_loss.
  unfold calculate_metrics. cbv zeta.
  assert (Ee : is_empty results = false) by (destruct results; [congruence | reflexivity]).
  rewrite Ee.
  pose proof (pylen_pos results Hne) as Hpos.
  assert (E : (0 <? pylen results)%Z = true) by (apply Z.ltb_lt; exact Hpos).
  rewrite E, (pydiv_len_ok _ results Hne). cbn [bind].
  assert (H1 : mean_or_zero returns
               = Ok (pysum returns / inject_Z (pylen returns))).
  { unfold mean_or_zero, returns. destruct results; [congruence|].
    cbn [map is_empty]. apply pydiv_len_ok. discriminate. }
  fold returns. rewrite (bind_ok _ _ _ H1).
  destruct (mean_or_zero_total (map return_pct (filter is_winner results)))
    as [a2 H2].
  rewrite (bind_ok _ _ _ H2).
  destruct (mean_or_zero_total
              (map return_pct (filter (fun r => negb (is_winner r)) results)))
    as [a3 H3].
  rewrite (bind_ok _ _ _ H3).
  fold gross_profit gross_loss.
  assert (H4 : exists pf,
            (if 0 <? gross_loss then pydiv gross_profit gross_loss else Ok 0.0)
            = Ok pf
            /\ (0 < gross_loss -> pf = gross_profit / gross_loss)
            /\ (gross_loss <= 0 -> pf = 0.0)).
  { destruct (0 <? gross_loss) eqn:E4; qprop.
    - rewrite pydiv_ok by lra. eexists. split; [reflexivity|].
      split; [reflexivity | intro; lra].
    - eexists. split; [reflexivity|]. split; [intro; lra | reflexivity]. }
  destruct H4 as (pf & H4 & P1 & P2). rewrite (bind_ok _ _ _ H4).
  destruct (max_drawdown_total results) as [dd H5].
  rewrite (bind_ok _ _ _ H5).
  destruct (sharpe_total sqrt returns 0.0) as [sh H6].
  rewrite (bind_ok _ _ _ H6).
  destruct (sortino_total sqrt returns 0.0) as [so H7].
  rewrite (bind_ok _ _ _ H7).
  rewrite (pydiv_len_ok _ results Hne). cbn [bind].
  eexists. split; [reflexivity|]. cbn.
  repeat split; assumption.
Qed.



(** Without a losing trade the profit factor is the floor 0.0, not an
    infinite ratio; with losses it is the gross profit over the gross loss. *)
Theorem profit_factor_floor (results : list BacktestResult) :
  results <> [] ->
  exists m,
    calculate_metrics sqrt results = Ok m
    /\ (Forall (fun r => is_winner r = true) results -> profit_factor m = 0.0)
    /\ (0 < Qabs (pysum (map realized_pnl
                           (filter (fun r => negb (is_winner r)) results))) ->
        profit_factor m
        * Qabs (pysum (map realized_pnl
                         (filter (fun r => negb (is_winner r)) results)))
        == pysum (map realized_pnl (filter is_winner results))).
Proof.
  intro Hne.
  destruct (calculate_metrics_fields results Hne)
    as (m & Hm & _ & _ & _ & _ & _ & _ & _ & P1 & P2 & _).
  exists m. split; [exact Hm|]. split.
  - intro Hall. apply P2.
    rewrite (filter_nil (fun r => negb (is_winner r)) results).
    + vm_compute. congruence.
    + rewrite Forall_forall in Hall. intros r Hr. rewrite (Hall r Hr). reflexivity.
  - intro Hpos. rewrite (P1 Hpos). field. lra.
Qed.

End SummaryFacts.


Lemma profit_factor_floor_witness :
  exists m,
    calculate_metrics Qsqrt [Fixture.outcome 5 false; Fixture.outcome 6 false]
    = Ok m
    /\ profit_factor m = 0.0.
Proof.
  destruct (profit_factor_floor Qsqrt
              [Fixture.outcome 5 false; Fixture.outcome 6 false])
    as (m & Hm & Hfloor & _).
  - discriminate.
  - exists m. split; [exact Hm|]. apply Hfloor.
    repeat constructor.
Defined.

(* ================================================================== *)
(** * Drawdown and Sharpe ratio *)

Lemma insert_by_exit_date_perm (r : BacktestResult) (sorted : list BacktestResult) :
  Permutation (insert_by_exit_date r sorted) (r :: sorted).
Proof.
  induction sorted as [|x l IH]; simpl; [reflexivity|].
  destruct (exit_date r <? exit_date x)%Z; [reflexivity|].
  rewrite IH. apply perm_swap.
Qed.

Lemma sorted_by_exit_date_perm (results : list BacktestResult) :
  Permutation (sorted_by_exit_date results) results.
Proof.
  unfold sorted_by_exit_date.
  assert (G : forall l acc,
            Permutation (fold_left (fun acc r => insert_by_exit_date r acc) l acc)
              (l ++ acc)).
  { induction l as [|x l IH]; intro acc; [reflexivity|].
    cbn [fold_left]. rewrite IH, insert_by_exit_date_perm.
    symmetry. apply Permutation_middle. }
  rewrite G, app_nil_r. reflexivity.
Qed.

Lemma insert_by_exit_date_sorted (r : BacktestResult) (sorted : list BacktestResult) :
  StronglySorted by_exit_date sorted ->
  StronglySorted by_exit_date (insert_by_exit_date r sorted).
Proof.
  induction 1 as [|x l Hs IH Hx]; simpl.
  - repeat constructor.
  - destruct (exit_date r <? exit_date x)%Z eqn:E.
    + apply Z.ltb_lt in E. constructor; [constructor; assumption|].
      constructor; [unfold by_exit_date; lia|].
      apply Forall_impl with (2 := Hx). unfold by_exit_date. intros; lia.
    + apply Z.ltb_ge in E. constructor; [exact IH|].
      apply (Permutation_Forall (Permutation_sym (insert_by_exit_date_perm r l))).
      constructor; [exact E | exact Hx].
Qed.

Lemma sorted_by_exit_date_sorted (results : list BacktestResult) :
  StronglySorted by_exit_date (sorted_by_exit_date results).
Proof.
  unfold sorted_by_exit_date.
  assert (G : forall l acc,
            StronglySorted by_exit_date acc ->
            StronglySorted by_exit_date
              (fold_left (fun acc r => insert_by_exit_date r acc) l acc)).
  { induction l as [|x l IH]; intros acc Ha; [exact Ha|].
    cbn [fold_left]. apply IH. apply insert_by_exit_date_sorted. exact Ha. }
  apply G. constructor.
Qed.

(** Two lists sorted by exit date that hold the same outcomes, no two of
    them with one exit date, are the same list. *)
Lemma sorted_unique (l1 : list BacktestResult) :
  forall l2,
    StronglySorted by_exit_date l1 ->
    StronglySorted by_exit_date l2 ->
    NoDup (map exit_date l1) ->
    Permutation l1 l2 ->
    l1 = l2.
Proof.
  induction l1 as [|x t1 IH]; intros l2 S1 S2 Hnd P.
  - apply Permutation_nil in P. congruence.
  - destruct l2 as [|y t2].
    { apply Permutation_sym, Permutation_nil in P. discriminate. }
    inversion S1 as [|? ? S1' F1]; subst.
    inversion S2 as [|? ? S2' F2]; subst.
    inversion Hnd as [|? ? Hx Hnd']; subst.
    assert (Exy : x = y).
    { assert (Hy : In y (x :: t1))
        by (apply (Permutation_in _ (Permutation_sym P)); left; reflexivity).
      destruct Hy as [Hy|Hy]; [exact Hy|]. exfalso.
      assert (Hxin : In x (y :: t2))
        by (apply (Permutation_in _ P); left; reflexivity).
      destruct Hxin as [Hxin|Hxin]; [subst y; apply Hx, in_map, Hy|].
      rewrite Forall_forall in F1, F2.
      pose proof (F1 y Hy) as L1. pose proof (F2 x Hxin) as L2.
      unfold by_exit_date in *.
      apply Hx. replace (exit_date x) with (exit_date y) by lia.
      apply in_map. exact Hy. }
    subst y. f_equal. apply IH; try assumption.
    apply (Permutation_cons_inv P).
Qed.

Lemma drawdown_walk_ge (results : list BacktestResult) :
  forall c p m v, drawdown_walk results c p m = Ok v -> m <= v.
Proof.
  induction results as [|r rest IH]; intros c p m v.
  - simpl. intro H. inversion H; subst. lra.
  - cbn [drawdown_walk]. cbv zeta.
    set (c' := c + realized_pnl r).
    set (p' := if p <? c' then c' else p).
    destruct (0 <? p') eqn:E.
    + qprop. rewrite pydiv_ok by lra. cbn [bind]. intro H.
      apply IH in H. pose proof (Q.le_max_l m ((p' - c') / p' * 100)). lra.
    + apply IH.
Qed.

Lemma drawdown_walk_no_loss (results : list BacktestResult) :
  forall c p m,
    Forall (fun r => 0 <= realized_pnl r) results ->
    p == c -> m == 0 ->
    exists v, drawdown_walk results c p m = Ok v /\ v == 0.
Proof.
  induction results as [|r rest IH]; intros c p m Hall Hp Hm.
  - exists m. split; [reflexivity | exact Hm].
  - inversion Hall as [|? ? Hr Hrest]; subst.
    cbn [drawdown_walk]. cbv zeta.
    set (c' := c + realized_pnl r).
    set (p' := if p <? c' then c' else p).
    assert (Hp' : p' == c').
    { unfold p'. destruct (p <? c') eqn:E; [reflexivity|].
      qprop. unfold c' in *. lra. }
    destruct (0 <? p') eqn:E.
    + qprop. rewrite pydiv_ok by lra. cbn [bind].
      apply IH; [exact Hrest | exact Hp' |].
      assert (D : (p' - c') / p' * 100 == 0).
      { assert (N : p' - c' == 0) by lra. rewrite N. field. lra. }
      destruct (Q.max_spec m ((p' - c') / p' * 100)) as [[_ Em]|[_ Em]];
        rewrite Em; lra.
    + apply IH; assumption.
Qed.

Lemma drawdown_walk_no_gain (results : list BacktestResult) :
  forall c p m,
    Forall (fun r => realized_pnl r <= 0) results ->
    c <= p -> p <= 0 ->
    drawdown_walk results c p m = Ok m.
Proof.
  induction results as [|r rest IH]; intros c p m Hall Hc Hp; [reflexivity|].
  inversion Hall as [|? ? Hr Hrest]; subst.
  cbn [drawdown_walk]. cbv zeta.
  assert (E1 : (p <? c + realized_pnl r) = false) by (apply Qltb_false; lra).
  rewrite E1.
  assert (E2 : (0 <? p) = false) by (apply Qltb_false; lra).
  rewrite E2. apply IH; [exact Hrest | lra | exact Hp].
Qed.

(** The maximum drawdown is never negative.  It is 0 when no trade loses
    money, and it is also 0 when no trade makes money: the cumulative P&L then
    never rises above 0, so no peak is ever set. *)
Theorem max_drawdown_edges (results : list BacktestResult) :
  exists dd,
    _calculate_max_drawdown results = Ok dd
    /\ 0 <= dd
    /\ (Forall (fun r => 0 <= realized_pnl r) results -> dd == 0)
    /\ (Forall (fun r => realized_pnl r <= 0) results -> dd == 0).
Proof.
  destruct (max_drawdown_total results) as [dd Hdd].
  exists dd. split; [exact Hdd|].
  unfold _calculate_max_drawdown in *.
  destruct (is_empty results).
  { inversion Hdd; subst. repeat split; intros; lra. }
  pose proof (sorted_by_exit_date_perm results) as P.
  split; [|split].
  - apply drawdown_walk_ge in Hdd. lra.
  - intro Hall.
    destruct (drawdown_walk_no_loss (sorted_by_exit_date results) 0.0 0.0 0.0)
      as (v & Hv & Hz); try reflexivity.
    + apply (Permutation_Forall (Permutation_sym P)). exact Hall.
    + congruence.
  - intro Hall.
    rewrite (drawdown_walk_no_gain (sorted_by_exit_date results) 0.0 0.0 0.0)
      in Hdd; try lra.
    + inversion Hdd; subst. reflexivity.
    + apply (Permutation_Forall (Permutation_sym P)). exact Hall.
Qed.

Lemma max_drawdown_edges_witness :
  exists dd,
    _calculate_max_drawdown [Fixture.outcome (-4) true; Fixture.outcome (-5) true]
    = Ok dd
    /\ dd == 0.
Proof.
  destruct (max_drawdown_edges
              [Fixture.outcome (-4) true; Fixture.outcome (-5) true])
    as (dd & Hdd & _ & _ & Hz).
  exists dd. split; [exact Hdd|]. apply Hz.
  apply Forall_cons; [vm_compute; congruence|].
  apply Forall_cons; [vm_compute; congruence | apply Forall_nil].
Defined.

(** When no two outcomes share an exit date, the maximum drawdown does not
    depend on the order in which the outcomes are listed. *)
Theorem max_drawdown_order_independent (results results' : list BacktestResult) :
  NoDup (map exit_date results) ->
  Permutation results results' ->
  _calculate_max_drawdown results = _calculate_max_drawdown results'.
Proof.
  intros Hnd P. unfold _calculate_max_drawdown.
  assert (Es : sorted_by_exit_date results = sorted_by_exit_date results').
  { apply sorted_unique.
    - apply sorted_by_exit_date_sorted.
    - apply sorted_by_exit_date_sorted.
    - apply (Permutation_NoDup (l := map exit_date results)); [|exact Hnd].
      apply Permutation_map. symmetry. apply sorted_by_exit_date_perm.
    - rewrite sorted_by_exit_date_perm, P. symmetry.
      apply sorted_by_exit_date_perm. }
  rewrite Es.
  destruct results, results'; try reflexivity.
  apply Permutation_nil in P. discriminate.
Qed.

Section SharpeFacts.

Variable sqrt : Q -> Q.
Hypothesis sqrt_zero : forall x, x == 0 -> sqrt x == 0.



End SharpeFacts.


Lemma max_drawdown_order_independent_witness :
  _calculate_max_drawdown
    [Fixture.outcome 5 false;
     mkBacktestResult Fixture.sample_iron_condor Fixture.entry Fixture.entry
       profit_target 2.9 0.87 2.03 2.9 2.1 96 0 true false]
  = _calculate_max_drawdown
      [mkBacktestResult Fixture.sample_iron_condor Fixture.entry Fixture.entry
         profit_target 2.9 0.87 2.03 2.9 2.1 96 0 true false;
       Fixture.outcome 5 false].
Proof.
  apply max_drawdown_order_independent.
  - simpl. constructor; [|constructor; [intros [] | constructor]].
    intros [H|[]]. discriminate H.
  - apply perm_swap.
Defined.

(* ================================================================== *)
(** * The significance test and the recommendation *)

(** The approximate p-value lies in (0, 0.5], and it is below the 0.05
    threshold exactly when the statistic exceeds 2.0 with more than 30 degrees
    of freedom, or 2.5 otherwise: a statistic between 1.96 and 2.0 gives
    exactly 0.05, which is not significant. *)
Theorem approximate_p_value_threshold (t_stat df : Q) :
  0 < _approximate_p_value t_stat df
  /\ _approximate_p_value t_stat df <= 0.5
  /\ ((_approximate_p_value t_stat df <? 0.05) = true
      <-> (30 < df /\ 2.0 < t_stat) \/ (df <= 30 /\ 2.5 < t_stat)).
Proof.
  unfold _approximate_p_value.
  destruct (30 <? df) eqn:D;
    repeat match goal with
    | |- context [if ?c <? t_stat then _ else _] => destruct (c <? t_stat) eqn:?
    end;
    qprop;
    (split; [reflexivity|]); (split; [vm_compute; congruence|]);
    (split; [intro H; try discriminate H; (left + right); split; lra
            | intros [[? ?]|[? ?]]; try reflexivity; exfalso; lra]).
Qed.


Section TestFacts.

Variable today : Z.
Variable sqrt : Q -> Q.
Hypothesis sqrt_zero : forall x, x == 0 -> sqrt x == 0.






End TestFacts.



